(** * plot_2d-eem: batch contour plots of excitation-emission matrices

    A shallow embedding of [plot_2d-eem.py] and the properties of its four
    functions: [get_fileNames], [get_XYZ], [plot_contour] and [main].

    The script drives four libraries.  Their calls are modelled at the
    interface the script uses, each next to the definition that needs it:
    - [os.listdir], [os.path.join], [str.endswith], slicing, [sorted],
      [int], [round], [max], [repr], [print] (Python);
    - [pd.read_csv], [DataFrame.T], [Index.astype], [DataFrame.max] (pandas);
    - [np.meshgrid], [np.arange] (numpy);
    - [Axes.contourf], [Figure.savefig] (matplotlib).

    Numbers: intensities and wavelengths are integers ([Z]).  This is the
    [int64] case of the data frame, a file whose readings are whole numbers.
    Readings with a fractional part and missing values (NaN) are not
    represented.  [round] and [np.arange] compute in binary64; on whole
    numbers of magnitude below 2^52 those operations are exact and agree with
    the integer arithmetic used here, and the properties of the tick values
    carry that bound.

    Text: a [str] is held as its UTF-8 bytes, and file names are taken to be
    UTF-8 text that the console can print. *)

From Stdlib Require Import ZArith Ascii String List Lia DecimalString.
From stdpp Require Import base list strings sorting gmap.

(** ** Exceptions and results *)

Inductive exn : Type :=
| OSError (path : string)          (* missing or unreadable file or directory *)
| ParserError (path : string)      (* pandas cannot read the content as a table *)
| ValueError_int (lit : string)    (* [int()] of something that is no integer literal *)
| OverflowError_int (lit : string) (* an integer that does not fit [int64] *)
| ContourError                     (* [contourf] rejects its arguments *)
| ValueError_max                   (* [max()] of an empty sequence *)
| ArangeError                      (* [np.arange] with a zero step *)
| SavefigError (path : string).    (* unsupported format or unwritable target *)

Inductive result (A : Type) : Type :=
| OK (a : A)
| Raise (e : exn).
Arguments OK {A} a.
Arguments Raise {A} e.

Global Instance result_ret : MRet result := λ A a, OK a.
Global Instance result_bind : MBind result := λ A B f r,
  match r with
  | OK a => f a
  | Raise e => Raise e
  end.

(** ** Python strings *)

Module Py.

(** [s.endswith(suffix)] *)
Fixpoint endswith (s suffix : string) : bool :=
  String.eqb s suffix ||
  match s with
  | EmptyString => false
  | String _ s' => endswith s' suffix
  end.

(** A [str] is held as its UTF-8 bytes.  A byte 10xxxxxx continues the
    character of the byte before it. *)
Definition is_continuation (c : ascii) : bool :=
  let n := nat_of_ascii c in (128 <=? n) && (n <? 192).

Definition is_ascii_char (c : ascii) : bool := nat_of_ascii c <? 128.

Fixpoint is_ascii (s : string) : bool :=
  match s with
  | EmptyString => true
  | String c s' => is_ascii_char c && is_ascii s'
  end.

(** [len(s)]: the number of characters. *)
Fixpoint char_count (s : string) : nat :=
  match s with
  | EmptyString => 0
  | String c s' => (if is_continuation c then 0 else 1) + char_count s'
  end.

(** [s[:k]]: the first [k] characters. *)
Fixpoint take_chars (k : nat) (s : string) : string :=
  match s with
  | EmptyString => EmptyString
  | String c s' =>
      if is_continuation c then String c (take_chars k s')
      else match k with
           | 0 => EmptyString
           | S k' => String c (take_chars k' s')
           end
  end.

(** [s[:-n]]: all but the last [n] characters (empty when [s] is shorter). *)
Definition drop_last (n : nat) (s : string) : string :=
  take_chars (char_count s - n) s.

(** [os.path.join(a, b)] on a POSIX system. *)
Definition path_join (a b : string) : string :=
  if String.prefix "/" b then b
  else if String.eqb a "" || endswith a "/" then a +:+ b
  else a +:+ "/" +:+ b.

(** The ASCII whitespace that [int()] strips: tab, line feed, vertical tab,
    form feed, carriage return and space. *)
Definition is_space (c : ascii) : bool :=
  let n := nat_of_ascii c in
  ((9 <=? n) && (n <=? 13)) || (n =? 32).

Fixpoint lstrip (s : string) : string :=
  match s with
  | EmptyString => EmptyString
  | String c s' => if is_space c then lstrip s' else s
  end.

Definition strip (s : string) : string :=
  String.rev (lstrip (String.rev (lstrip s))).

Definition digit_of (c : ascii) : option Z :=
  let n := nat_of_ascii c in
  if (48 <=? n) && (n <=? 57) then Some (Z.of_nat (n - 48)) else None.

(** The digits of a decimal literal; single underscores may separate digits.
    [seen] says that the previous character was a digit. *)
Fixpoint digits (acc : Z) (seen : bool) (s : string) : option Z :=
  match s with
  | EmptyString => if seen then Some acc else None
  | String c s' =>
      match digit_of c with
      | Some d => digits (10 * acc + d) true s'
      | None =>
          if Ascii.eqb c "_" && seen then digits acc false s' else None
      end
  end.

Fixpoint digit_count (s : string) : nat :=
  match s with
  | EmptyString => 0
  | String c s' =>
      match digit_of c with Some _ => 1 | None => 0 end + digit_count s'
  end.

(** [int(s)] for a [str]: [None] stands for [ValueError].  A literal of more
    than 4300 digits is refused.  This is [int()] on ASCII text.  Python also
    strips Unicode spaces and reads Unicode decimal digits; a string with a
    byte above 127 gets [None] here, and the properties that rest on a
    [None] are stated for ASCII strings. *)
Definition int (s : string) : option Z :=
  if 4300 <? digit_count s then None
  else
    match strip s with
    | String "+" r => digits 0 false r
    | String "-" r => Z.opp <$> digits 0 false r
    | t => digits 0 false t
    end.

(** [str(n)] for a non-negative [int]. *)
Definition str (n : nat) : string :=
  NilEmpty.string_of_uint (Nat.to_uint n).

Definition hex_digit (n : nat) : ascii :=
  if n <? 10 then ascii_of_nat (48 + n) else ascii_of_nat (87 + n).

(** One character of [repr(s)], given the quote in use.  A byte above 127
    belongs to the UTF-8 sequence of a character that is kept as it is. *)
Definition repr_char (quote c : ascii) : string :=
  let n := nat_of_ascii c in
  if Ascii.eqb c quote || Ascii.eqb c "\" then String "\" (String c "")
  else if n =? 9 then "\t"
  else if n =? 10 then "\n"
  else if n =? 13 then "\r"
  else if (n <? 32) || (n =? 127) then
    String "\" (String "x" (String (hex_digit (n / 16)) (String (hex_digit (n mod 16)) "")))
  else String c "".

Definition dquote : ascii := ascii_of_nat 34.

Fixpoint contains (c : ascii) (s : string) : bool :=
  match s with
  | EmptyString => false
  | String c' s' => Ascii.eqb c c' || contains c s'
  end.

(** The characters U+0080 to U+00A0 and U+00AD are not printable; [repr]
    writes them as [\x] and two hex digits.  In UTF-8 they are the byte 194
    followed by the code of the character.  Characters from U+0100 on are
    taken to be printable. *)
Definition latin1_unprintable (c : ascii) : bool :=
  let n := nat_of_ascii c in
  ((128 <=? n) && (n <=? 160)) || (n =? 173).

Definition hex_escape (c : ascii) : string :=
  let n := nat_of_ascii c in
  String "\" (String "x" (String (hex_digit (n / 16)) (String (hex_digit (n mod 16)) ""))).

Fixpoint repr_body (quote : ascii) (s : string) : string :=
  match s with
  | EmptyString => EmptyString
  | String c s' =>
      match s' with
      | String c2 s'' =>
          if (nat_of_ascii c =? 194) && latin1_unprintable c2
          then hex_escape c2 +:+ repr_body quote s''
          else repr_char quote c +:+ repr_body quote s'
      | EmptyString => repr_char quote c
      end
  end.

(** [repr(s)] *)
Definition repr (s : string) : string :=
  let quote : ascii :=
    if contains "'" s && negb (contains dquote s) then dquote else "'"%char in
  String quote (repr_body quote s) +:+ String quote "".

Fixpoint join_with (sep : string) (l : list string) : string :=
  match l with
  | [] => ""
  | [s] => s
  | s :: l' => s +:+ sep +:+ join_with sep l'
  end.

(** [repr(l)] for a list of [str], as an f-string formats it. *)
Definition repr_list (l : list string) : string :=
  "[" +:+ join_with ", " (repr <$> l) +:+ "]".

(** [os.path.splitext(p)[1]]: the extension starts at the last dot of the
    last component, unless only dots come before it in that component.
    [seen] says that the component read so far has a character other than a
    dot. *)
Fixpoint has_dot_or_sep (s : string) : bool :=
  match s with
  | EmptyString => false
  | String c s' => Ascii.eqb c "." || Ascii.eqb c "/" || has_dot_or_sep s'
  end.

Fixpoint splitext_go (seen : bool) (s : string) : string :=
  match s with
  | EmptyString => EmptyString
  | String c s' =>
      if Ascii.eqb c "/" then splitext_go false s'
      else if Ascii.eqb c "." then
        if has_dot_or_sep s' then splitext_go seen s'
        else if seen then s else EmptyString
      else splitext_go true s'
  end.

Definition splitext_ext (p : string) : string := splitext_go false p.

Fixpoint only_dots (s : string) : bool :=
  match s with
  | EmptyString => true
  | String c s' => Ascii.eqb c "." && only_dots s'
  end.

(** [s.rstrip('.')] *)
Fixpoint lstrip_dots (s : string) : string :=
  match s with
  | EmptyString => EmptyString
  | String c s' => if Ascii.eqb c "." then lstrip_dots s' else s
  end.

Definition rstrip_dots (s : string) : string :=
  String.rev (lstrip_dots (String.rev s)).

(** [needle in s] *)
Fixpoint str_in (needle s : string) : bool :=
  String.prefix needle s ||
  match s with
  | EmptyString => false
  | String _ s' => str_in needle s'
  end.

(** [sorted(l)] on [str]: Python compares strings by code point, which on
    UTF-8 text is the bytewise order [String.le].  Python's sort is a stable
    merge sort; so is this one, and on an antisymmetric order every sorting
    algorithm returns the same list (lemma [sorted_unique] below). *)
Definition sorted (l : list string) : list string :=
  merge_sort String.le l.

End Py.

(** ** Tables and arrays *)

(** A cell as pandas holds it after type inference: a number, or the text
    of a field of a column that could not be read as numbers (in such a
    column, an [object] column, every field is text).  An empty field and
    the markers pandas reads as missing ([NA], [n/a], [nan], [null], ...)
    become NaN; frames with NaN are not represented. *)
Inductive cell : Type :=
| Num (z : Z)
| Str (s : string).

Definition cell_num (c : cell) : option Z :=
  match c with Num z => Some z | Str _ => None end.

(** A [DataFrame] with row labels of type [I] and column labels of type [C];
    [values] is the list of rows. *)
Record DataFrame (I C : Type) : Type := mkDataFrame {
  index : list I;
  columns : list C;
  values : list (list cell)
}.
Arguments mkDataFrame {I C} index columns values.
Arguments index {I C} d.
Arguments columns {I C} d.
Arguments values {I C} d.

(** [df.shape] *)
Definition df_shape {I C} (df : DataFrame I C) : nat * nat :=
  (length (index df), length (columns df)).

(** Every frame pandas builds is rectangular. *)
Definition rectangular {I C} (df : DataFrame I C) : Prop :=
  length (values df) = length (index df) ∧
  Forall (λ row, length row = length (columns df)) (values df).

(** The rows of the transpose of [rows], a matrix with [ncols] columns. *)
Fixpoint transpose {A} (ncols : nat) (rows : list (list A)) : list (list A) :=
  match rows with
  | [] => replicate ncols []
  | row :: rows' => zip_with cons row (transpose ncols rows')
  end.

(** [df.T] *)
Definition T {I C} (df : DataFrame I C) : DataFrame C I :=
  {| index := columns df;
     columns := index df;
     values := transpose (length (columns df)) (values df) |}.

(** A two-dimensional [ndarray]. *)
Record ndarray (A : Type) : Type := mkArray {
  shape : nat * nat;
  data : list (list A)
}.
Arguments mkArray {A} shape data.
Arguments shape {A} n.
Arguments data {A} n.

(** [np.meshgrid(x, y)]: both grids have [len(y)] rows and [len(x)] columns. *)
Definition meshgrid {A B} (x : list A) (y : list B) : ndarray A * ndarray B :=
  let sh := (length y, length x) in
  (mkArray sh (replicate (length y) x),
   mkArray sh ((λ yi, replicate (length x) yi) <$> y)).

Definition in_int64 (z : Z) : bool :=
  ((- 2 ^ 63 <=? z) && (z <? 2 ^ 63))%Z.

(** [idx.astype(int)] on an index of [str] labels: [int()] of each label,
    stored as [int64]; the first failure is raised. *)
Fixpoint astype_int (labels : list string) : result (list Z) :=
  match labels with
  | [] => OK []
  | s :: labels' =>
      match Py.int s with
      | None => Raise (ValueError_int s)
      | Some z =>
          if in_int64 z then zs ← astype_int labels'; OK (z :: zs)
          else Raise (OverflowError_int s)
      end
  end.

(** The [int64] a label converts to, if it does. *)
Definition label_int (label : string) : option Z :=
  match Py.int label with
  | Some z => if in_int64 z then Some z else None
  | None => None
  end.

(** ** The rendered figure *)

Record Figure : Type := mkFigure {
  fig_surface : list (list Z);   (* the z values handed to [contourf] *)
  fig_levels : nat;
  fig_cmap : string;
  fig_xlabel : string;
  fig_ylabel : string;
  fig_ticks : list Z;            (* colorbar ticks *)
  fig_dpi : nat
}.

(** ** The file system *)

(** What a path holds, as the script can observe it: a text that
    [pd.read_csv(path, header=0, index_col=0)] reads as the given frame
    (column labels are the header fields, kept as [str]; the index is the
    first column after type inference; a column with a field that is neither
    a number nor a missing-value marker comes back as text, without an
    error), a content that [read_csv] refuses (an empty file, bytes that are
    no text, a row with more fields than the header), or an image written by
    [savefig]. *)
Inductive file : Type :=
| CsvFile (table : DataFrame cell string)
| OtherFile
| ImageFile (fig : Figure).

(** [entries] is what [os.listdir] yields for a directory, in the order the
    operating system gives; [can_save] says whether [savefig] can write a
    file of that name (an extension the backend knows, a directory that can
    be written). *)
Record world : Type := mkWorld {
  entries : gmap string (list string);
  files : gmap string file;
  can_save : string → bool
}.

Definition listdir (w : world) (filePath : string) : result (list string) :=
  match entries w !! filePath with
  | Some l => OK l
  | None => Raise (OSError filePath)
  end.

Definition read_csv (w : world) (path : string) : result (DataFrame cell string) :=
  match files w !! path with
  | None => Raise (OSError path)
  | Some (CsvFile table) => OK table
  | Some _ => Raise (ParserError path)
  end.

(** The name under which [path] is listed in the directory [dir], when it
    lies directly in it. *)
Definition child_name (dir path : string) : option string :=
  let prefix :=
    if String.eqb dir "" || Py.endswith dir "/" then dir else dir +:+ "/" in
  if String.prefix prefix path then
    let name :=
      String.substring (String.length prefix)
        (String.length path - String.length prefix) path in
    if String.eqb name "" || Py.contains "/" name then None else Some name
  else None.

Definition add_entry (path : string) (listing : gmap string (list string))
    : gmap string (list string) :=
  map_imap (λ dir names,
    Some (match child_name dir path with
          | Some name => if decide (name ∈ names) then names else names ++ [name]
          | None => names
          end)) listing.

(** Writing a file replaces what the path held, and a new name shows up in
    the listing of its directory. *)
Definition write_file (path : string) (f : file) (w : world) : world :=
  {| entries := add_entry path (entries w);
     files := <[path := f]> (files w);
     can_save := can_save w |}.

(** ** get_fileNames *)

Definition csv_names (fileList : list string) : list string :=
  Py.sorted (filter (λ file, Py.endswith file ".csv" = true) fileList).

Definition get_fileNames (w : world) (filePath : string) : result (list string) :=
  fileList ← listdir w filePath;
  OK (csv_names fileList).

(** ** get_XYZ *)

Definition get_XYZ (w : world) (filePath fileName : string)
    : result (ndarray cell * ndarray Z * DataFrame string cell) :=
  raw ← read_csv w (Py.path_join filePath fileName);
  let Zm := T raw in
  let x := columns Zm in
  y ← astype_int (index Zm);
  let '(X, Y) := meshgrid x y in
  OK (X, Y, Zm).

(** ** plot_contour *)

(** [np.asarray(m, dtype=float)]: every cell has to be a number. *)
Definition as_numbers (rows : list (list cell)) : option (list (list Z)) :=
  mapM (mapM cell_num) rows.

(** The argument checks of [ax.contourf(X, Y, Z, ...)]: the three arrays
    convert to numbers, [Z] is at least 2 by 2, and [X] and [Y] have the
    shape of [Z].  The result is the surface that gets drawn. *)
Definition contourf (X : ndarray cell) (Y : ndarray Z) (Zm : DataFrame string cell)
    : result (list (list Z)) :=
  match as_numbers (data X), as_numbers (values Zm) with
  | Some _, Some zs =>
      if (2 <=? (df_shape Zm).1) && (2 <=? (df_shape Zm).2)
         && bool_decide (shape X = df_shape Zm)
         && bool_decide (shape Y = df_shape Zm)
      then OK zs
      else Raise ContourError
  | _, _ => Raise ContourError
  end.

(** [Z.max()] of a numeric frame: the maximum of each column.  (Of a frame
    without rows pandas returns a NaN per column; [contourf] has refused
    such a frame before this point.) *)
Definition DataFrame_max (zs : list (list Z)) : list Z :=
  match zs with
  | [] => []
  | row :: rows => foldl (zip_with Z.max) row rows
  end.

(** The builtin [max] of a sequence. *)
Definition py_max (l : list Z) : result Z :=
  match l with
  | [] => Raise ValueError_max
  | z :: l' => OK (foldl Z.max z l')
  end.

(** [round(m, -2)]: the nearest multiple of 100, a tie going to the even
    hundred (numpy divides by 100, rounds to the nearest integer and
    multiplies by 100, in binary64; exact for magnitudes below 2^52). *)
Definition round_hundreds (m : Z) : Z :=
  let q := (m / 100)%Z in
  let r := (m mod 100)%Z in
  if (r <? 50)%Z then (100 * q)%Z
  else if (50 <? r)%Z then (100 * (q + 1))%Z
  else if Z.even q then (100 * q)%Z
  else (100 * (q + 1))%Z.

(** [np.arange(start, stop, step)]: [ceil((stop - start) / step)] values
    [start + i * step]; a zero step is an error.  numpy computes the length
    and the values in binary64; for whole numbers of magnitude below 2^52
    that is the exact arithmetic written here. *)
Definition np_arange (start stop step : Z) : result (list Z) :=
  if (step =? 0)%Z then Raise ArangeError
  else
    let n := Z.to_nat (- ((- (stop - start)) / step))%Z in
    OK ((λ i, (start + Z.of_nat i * step)%Z) <$> seq 0 n).

(** The file name [savefig] writes to.  The format is the extension of the
    name; a name without one (only dots before the last dot of its last
    component, or nothing after it) gets the default format appended, after
    its trailing dots are removed. *)
Definition savefig_filename (path : string) : string :=
  match Py.splitext_ext path with
  | EmptyString | String _ EmptyString => Py.rstrip_dots path +:+ ".png"
  | _ => path
  end.

(** [fig.savefig(path, ...)] *)
Definition savefig (fig : Figure) (path : string) (w : world) : result world :=
  let filename := savefig_filename path in
  if can_save w filename then OK (write_file filename (ImageFile fig) w)
  else Raise (SavefigError filename).

(** The colorbar ticks of a surface with maximum [m] (lines 66 and 68).
    [maxZ / 5] is a true division in the source; [maxZ] is a multiple of
    100, so the integer quotient is the same number. *)
Definition colorbar_ticks (m : Z) : result (list Z) :=
  let maxZ := round_hundreds m in
  np_arange 0 (maxZ + 1) (maxZ / 5).

(** The figure as it stands when it is saved. *)
Definition contour_figure (cs : list (list Z)) (ticks : list Z) : Figure :=
  {| fig_surface := cs; fig_levels := 100; fig_cmap := "jet";
     fig_xlabel := "Emission Wavelength (nm)";
     fig_ylabel := "Excitation Wavelength (nm)";
     fig_ticks := ticks; fig_dpi := 300 |}.

Definition plot_contour (X : ndarray cell) (Y : ndarray Z) (Zm : DataFrame string cell)
    (filePath fileName outFormat : string) (w : world) : result world :=
  cs ← contourf X Y Zm;
  m ← py_max (DataFrame_max cs);
  ticks ← colorbar_ticks m;
  let outfile := Py.path_join filePath (Py.drop_last 4 fileName) in
  savefig (contour_figure cs ticks) (outfile +:+ "." +:+ outFormat) w.

(** ** main *)

(** The body of the [try] of the loop, for one file. *)
Definition plot_file (filePath outFormat file : string) (w : world) : result world :=
  '(X, Y, Zm) ← get_XYZ w filePath file;
  plot_contour X Y Zm filePath file outFormat w.

Definition failure_line (file : string) : string :=
  "Failed to plot " +:+ file +:+ ".".

Definition summary_line (count total : nat) : string :=
  "Succesfully plotted " +:+ Py.str count +:+ "/" +:+ Py.str total +:+ " files.".

(** The state of a run: the file system, the success count and the lines
    printed so far. *)
Record run : Type := mkRun {
  run_world : world;
  count : nat;
  stdout : list string
}.

(** The [for] loop: a failure of any kind prints and goes on.  [print] is
    taken to succeed (file names are text that the console can encode). *)
Fixpoint plot_all (filePath outFormat : string) (fileNames : list string) (st : run) : run :=
  match fileNames with
  | [] => st
  | file :: rest =>
      match plot_file filePath outFormat file (run_world st) with
      | OK w' =>
          plot_all filePath outFormat rest
            {| run_world := w'; count := count st + 1; stdout := stdout st |}
      | Raise _ =>
          plot_all filePath outFormat rest
            {| run_world := run_world st; count := count st;
               stdout := stdout st ++ [failure_line file] |}
      end
  end.

(** [main], on the two parsed command-line arguments.  A failure of the
    directory listing is not caught. *)
Definition main (file_path save_as : string) (w : world) : result run :=
  let filePath := file_path in
  let outFormat := save_as in
  fileNames ← get_fileNames w filePath;
  let st := plot_all filePath outFormat fileNames
    {| run_world := w; count := 0;
       stdout := ["There are " +:+ Py.str (length fileNames) +:+ " files to parse.";
                  "File list = " +:+ Py.repr_list fileNames] |} in
  OK {| run_world := run_world st; count := count st;
        stdout := stdout st ++ [summary_line (count st) (length fileNames)] |}.

(** ** Notions the properties are stated with *)

(** The data of an array fills its shape. *)
Definition array_wf {A} (a : ndarray A) : Prop :=
  length (data a) = (shape a).1 ∧
  Forall (λ row, length row = (shape a).2) (data a).

(** A sample file as the data model has it: a rectangular table whose header
    labels and first-column labels are whole numbers and whose cells are all
    numbers. *)
Definition well_formed (raw : DataFrame cell string) : Prop :=
  rectangular raw
  ∧ Forall (λ label, is_Some (label_int label)) (columns raw)
  ∧ Forall (λ label, is_Some (cell_num label)) (index raw)
  ∧ Forall (Forall (λ c, is_Some (cell_num c))) (values raw).

(** [m] is the largest entry of the matrix [zs]. *)
Definition matrix_max (zs : list (list Z)) (m : Z) : Prop :=
  (∃ row, row ∈ zs ∧ m ∈ row) ∧
  ∀ row z, row ∈ zs → z ∈ row → (z ≤ m)%Z.

(** ** Sample inputs *)

(** The table of the running example: excitation wavelengths 300, 310, 320
    in the header row, emission wavelengths 350, 360 in the first column. *)
Definition eem_table (c11 c12 c13 c21 c22 c23 : cell) : DataFrame cell string :=
  mkDataFrame [Num 350; Num 360] ["300"; "310"; "320"]
    [[c11; c12; c13]; [c21; c22; c23]].

Definition sample_table : DataFrame cell string :=
  eem_table (Num 110) (Num 120) (Num 130) (Num 210) (Num 437) (Num 230).

(** A directory [data] with three eligible files, listed out of order, and
    two entries that are not eligible.  In [b.csv] one reading is the text
    [abc]; pandas then keeps the whole column as text.  [notes.txt] is an
    empty file. *)
Definition png_only (path : string) : bool := Py.endswith path ".png".

Definition sample_world : world :=
  {| entries := {[ "data" := ["c.csv"; "notes.txt"; "a.csv"; "b.CSV"; "b.csv"] ]};
     files := {[ "data/a.csv" := CsvFile sample_table;
                 "data/b.csv" := CsvFile (eem_table (Num 110) (Str "abc") (Num 130)
                                                    (Num 210) (Str "437") (Num 230));
                 "data/c.csv" := CsvFile sample_table;
                 "data/notes.txt" := OtherFile;
                 "data/b.CSV" := CsvFile sample_table ]};
     can_save := png_only |}.

(** A table whose first column holds labels that are no numbers. *)
Definition labelled_table : DataFrame cell string :=
  mkDataFrame [Str "em350"; Str "em360"] ["300"; "310"; "320"]
    [[Num 110; Num 120; Num 130]; [Num 210; Num 437; Num 230]].

Definition labelled_world : world :=
  {| entries := {[ "data" := ["t.csv"] ]};
     files := {[ "data/t.csv" := CsvFile labelled_table ]};
     can_save := png_only |}.

(** A table whose second header label is no integer. *)
Definition decimal_table : DataFrame cell string :=
  mkDataFrame [Num 350; Num 360] ["300"; "310.5"; "320"]
    [[Num 110; Num 120; Num 130]; [Num 210; Num 437; Num 230]].

(** Tables that differ from the sample in their readings: one with maximum
    487, one whose readings are all negative, one with readings below 50 and
    one whose largest reading is 0. *)
Definition bright_table : DataFrame cell string :=
  eem_table (Num 110) (Num 120) (Num 130) (Num 210) (Num 487) (Num 230).

Definition negative_table : DataFrame cell string :=
  eem_table (Num (-437)) (Num (-500)) (Num (-600)) (Num (-700)) (Num (-800)) (Num (-900)).

Definition faint_table : DataFrame cell string :=
  eem_table (Num 11) (Num 12) (Num 13) (Num 21) (Num 37) (Num 23).

Definition dark_table : DataFrame cell string :=
  eem_table (Num (-3)) (Num (-2)) (Num (-1)) (Num (-4)) (Num 0) (Num (-6)).

Definition one_file_world (table : DataFrame cell string) : world :=
  {| entries := {[ "data" := ["s.csv"] ]};
     files := {[ "data/s.csv" := CsvFile table ]};
     can_save := png_only |}.

Definition decimal_world : world := one_file_world decimal_table.

(** The grids and the transposed table that [get_XYZ] returns for the
    tables above. *)
Definition sample_X : ndarray cell :=
  mkArray (3, 2) [[Num 350; Num 360]; [Num 350; Num 360]; [Num 350; Num 360]].

Definition sample_Y : ndarray Z :=
  mkArray (3, 2) [[300; 300]; [310; 310]; [320; 320]]%Z.

(** The paths of a world that hold an image. *)
Definition is_image (f : file) : bool :=
  match f with ImageFile _ => true | _ => false end.

Definition images (w : world) : gset string :=
  dom (filter (λ entry, is_image entry.2 = true) (files w)).

(** ** Notions for the properties of whole runs *)

Definition is_OK {A} (r : result A) : bool :=
  match r with OK _ => true | Raise _ => false end.

(** The path that lines 70 and 71 of [plot_contour] hand to [savefig], and
    the file that [savefig] then writes. *)
Definition out_path (filePath fileName outFormat : string) : string :=
  Py.path_join filePath (Py.drop_last 4 fileName) +:+ "." +:+ outFormat.

Definition saved_path (filePath fileName outFormat : string) : string :=
  savefig_filename (out_path filePath fileName outFormat).

(** A stem as a directory entry has it (no separator) with a character
    other than a dot, and a format that is a bare extension. *)
Definition plain_stem (stem : string) : bool :=
  negb (Py.contains "/" stem) && negb (Py.only_dots stem).

Definition plain_format (outFormat : string) : bool :=
  negb (String.eqb outFormat "") && negb (Py.has_dot_or_sep outFormat).

(** A directory without eligible entries, and the sample directory under a
    backend that can write no file at all. *)
Definition notes_world : world :=
  {| entries := {[ "data" := ["notes.txt"; "b.CSV"] ]};
     files := {[ "data/notes.txt" := OtherFile; "data/b.CSV" := CsvFile sample_table ]};
     can_save := png_only |}.

Definition read_only_world : world :=
  {| entries := entries sample_world;
     files := files sample_world;
     can_save := λ _, false |}.

(** Tables too small to draw: a single emission row, and a header only. *)
Definition one_row_table : DataFrame cell string :=
  mkDataFrame [Num 350] ["300"; "310"; "320"] [[Num 110; Num 120; Num 130]].

Definition header_only_table : DataFrame cell string :=
  mkDataFrame [] ["300"; "310"; "320"] [].

(** The same file system with another answer of [os.listdir]. *)
Definition with_entries (listing : gmap string (list string)) (w : world) : world :=
  {| entries := listing; files := files w; can_save := can_save w |}.

(** * Properties *)

(** ** Strings *)

Section strings.
Implicit Types s p suffix : string.

Lemma string_app_cons c s1 s2 : String c s1 +:+ s2 = String c (s1 +:+ s2).
Proof. reflexivity. Qed.

Lemma string_app_nil_l s : "" +:+ s = s.
Proof. reflexivity. Qed.

Lemma string_app_nil_r s : s +:+ "" = s.
Proof. induction s; rewrite ?string_app_cons; by f_equal. Qed.

Lemma string_app_assoc s1 s2 s3 : (s1 +:+ s2) +:+ s3 = s1 +:+ s2 +:+ s3.
Proof. induction s1; rewrite ?string_app_cons; by f_equal. Qed.

Lemma string_app_length s1 s2 :
  String.length (s1 +:+ s2) = String.length s1 + String.length s2.
Proof. induction s1; rewrite ?string_app_cons; simpl; by f_equal. Qed.

Lemma endswith_spec s suffix :
  Py.endswith s suffix = true ↔ ∃ p, s = p +:+ suffix.
Proof.
  induction s as [|c s IH]; cbn [Py.endswith].
  - rewrite orb_false_r, String.eqb_eq. split.
    + intros <-. by exists "".
    + intros [[|c p] Hp]; [done | discriminate].
  - rewrite orb_true_iff, String.eqb_eq, IH. split.
    + intros [<- | [p ->]]; [by exists "" | by exists (String c p)].
    + intros [[|c' p] Hp]; [by left | right].
      rewrite string_app_cons in Hp. injection Hp as _ ->. by exists p.
Qed.

Lemma string_suffix_inj p1 p2 s1 s2 :
  String.length s1 = String.length s2 → p1 +:+ s1 = p2 +:+ s2 → s1 = s2.
Proof.
  revert p2. induction p1 as [|c p1 IH]; intros [|c' p2] Hlen Heq;
    rewrite ?string_app_cons, ?string_app_nil_l in Heq.
  - done.
  - apply (f_equal String.length) in Heq. simpl in Heq.
    rewrite string_app_length in Heq. lia.
  - apply (f_equal String.length) in Heq. simpl in Heq.
    rewrite string_app_length in Heq. lia.
  - injection Heq as _ Heq. eauto.
Qed.

Lemma char_count_app s1 s2 :
  Py.char_count (s1 +:+ s2) = Py.char_count s1 + Py.char_count s2.
Proof.
  induction s1 as [|c s1 IH]; rewrite ?string_app_cons, ?string_app_nil_l; simpl;
    [done|]. rewrite IH. lia.
Qed.

Lemma char_count_ascii s : Py.is_ascii s = true → Py.char_count s = String.length s.
Proof.
  induction s as [|c s IH]; simpl; [done|].
  intros [Hc Hs]%andb_true_iff. rewrite IH by done.
  unfold Py.is_ascii_char in Hc. unfold Py.is_continuation.
  apply Nat.ltb_lt in Hc. by rewrite (proj2 (Nat.leb_gt 128 _)) by done.
Qed.

Lemma take_chars_app s suffix :
  Py.is_ascii suffix = true →
  Py.take_chars (Py.char_count s) (s +:+ suffix) = s.
Proof.
  intros Hsuffix.
  induction s as [|c s IH]; rewrite ?string_app_cons, ?string_app_nil_l; simpl.
  - destruct suffix as [|c suffix]; simpl in *; [done|].
    apply andb_true_iff in Hsuffix as [Hc _].
    unfold Py.is_ascii_char in Hc. unfold Py.is_continuation.
    apply Nat.ltb_lt in Hc. by rewrite (proj2 (Nat.leb_gt 128 _)) by done.
  - destruct (Py.is_continuation c); simpl; by rewrite IH.
Qed.

(** Dropping as many characters as an ASCII suffix has drops the suffix. *)
Lemma drop_last_app s suffix :
  Py.is_ascii suffix = true →
  Py.drop_last (String.length suffix) (s +:+ suffix) = s.
Proof.
  intros Hsuffix. unfold Py.drop_last.
  rewrite char_count_app, (char_count_ascii suffix) by done.
  replace (Py.char_count s + String.length suffix - String.length suffix)
    with (Py.char_count s) by lia.
  by apply take_chars_app.
Qed.

Lemma drop_last_csv stem : Py.drop_last 4 (stem +:+ ".csv") = stem.
Proof. by apply (drop_last_app stem ".csv"). Qed.

Lemma prefix_slash_app s suffix :
  s ≠ "" → String.prefix "/" (s +:+ suffix) = String.prefix "/" s.
Proof.
  destruct s as [|c s]; [done|]. intros _. rewrite string_app_cons.
  cbn [String.prefix]. destruct (ascii_dec "/" c); [|done].
  generalize (s +:+ suffix). intros t. by destruct s, t.
Qed.

Lemma path_join_app a b suffix :
  String.prefix "/" suffix = false →
  Py.path_join a (b +:+ suffix) = Py.path_join a b +:+ suffix.
Proof.
  intros Hs. unfold Py.path_join.
  destruct b as [|c b].
  - rewrite string_app_nil_l, Hs. simpl String.prefix. cbv iota.
    destruct (_ || _); by rewrite ?string_app_assoc, ?string_app_nil_r.
  - rewrite prefix_slash_app by done.
    destruct (String.prefix "/" (String c b)); [done|].
    destruct (_ || _); by rewrite ?string_app_assoc.
Qed.
Lemma has_dot_or_sep_app a c b :
  c = "."%char ∨ c = "/"%char → Py.has_dot_or_sep (a +:+ String c b) = true.
Proof.
  intros Hc. induction a as [|c' a IH]; rewrite ?string_app_cons, ?string_app_nil_l;
    cbn [Py.has_dot_or_sep].
  - by destruct Hc as [-> | ->].
  - rewrite IH. by rewrite orb_true_r.
Qed.

Lemma splitext_go_sep seen a b :
  Py.splitext_go seen (a +:+ String "/" b) = Py.splitext_go false b.
Proof.
  revert seen. induction a as [|c a IH]; intros seen;
    rewrite ?string_app_cons, ?string_app_nil_l; cbn [Py.splitext_go].
  - done.
  - destruct (Ascii.eqb c "/"); [done|]. destruct (Ascii.eqb c "."); [|done].
    by rewrite has_dot_or_sep_app by by right.
Qed.

Lemma splitext_ext_join a b :
  String.prefix "/" b = false →
  Py.splitext_ext (Py.path_join a b) = Py.splitext_go false b.
Proof.
  intros Hb. unfold Py.splitext_ext, Py.path_join. rewrite Hb.
  destruct (String.eqb a "") eqn:Ha.
  - apply String.eqb_eq in Ha as ->. done.
  - simpl. destruct (Py.endswith a "/") eqn:Hsep.
    + apply endswith_spec in Hsep as [p ->].
      rewrite string_app_assoc. apply splitext_go_sep.
    + apply splitext_go_sep.
Qed.

Lemma splitext_go_format seen stem fmt :
  Py.contains "/" stem = false →
  seen = true ∨ Py.only_dots stem = false →
  Py.has_dot_or_sep fmt = false →
  Py.splitext_go seen (stem +:+ "." +:+ fmt) = "." +:+ fmt.
Proof.
  intros Hsep Hseen Hfmt. revert seen Hseen.
  induction stem as [|c stem IH]; intros seen Hseen;
    rewrite ?string_app_cons, ?string_app_nil_l.
  - destruct Hseen as [-> | ?]; [|done].
    change ("." +:+ fmt) with (String "." fmt). cbn [Py.splitext_go].
    by rewrite Hfmt.
  - cbn [Py.contains] in Hsep. apply orb_false_iff in Hsep as [Hc Hsep].
    cbn [Py.splitext_go]. rewrite Ascii.eqb_sym, Hc.
    destruct (Ascii.eqb c ".") eqn:Hdot.
    + rewrite has_dot_or_sep_app by by left.
      apply IH; [done|]. destruct Hseen as [-> | Hdots]; [by left|right].
      cbn [Py.only_dots] in Hdots. by rewrite Hdot in Hdots.
    + apply IH; [done|by left].
Qed.

(** A name with a plain stem and a bare extension is written as it is. *)
Lemma savefig_filename_plain filePath stem outFormat :
  plain_stem stem = true → plain_format outFormat = true →
  savefig_filename (Py.path_join filePath stem +:+ "." +:+ outFormat)
  = Py.path_join filePath stem +:+ "." +:+ outFormat.
Proof.
  unfold plain_stem, plain_format.
  intros [Hsep Hdots]%andb_true_iff [Hne Hfmt]%andb_true_iff.
  apply negb_true_iff in Hsep, Hdots, Hne, Hfmt.
  unfold savefig_filename. rewrite <- path_join_app by done.
  rewrite splitext_ext_join.
  - rewrite splitext_go_format by auto.
    destruct outFormat as [|c fmt]; [done|]. done.
  - destruct stem as [|c stem]; [done|].
    cbn [Py.contains] in Hsep. apply orb_false_iff in Hsep as [Hc _].
    rewrite string_app_cons. cbn [String.prefix].
    destruct (ascii_dec "/" c) as [<-|]; [done|]. done.
Qed.

End strings.

Section file_names.

Lemma sorted_sorted l : StronglySorted String.le (Py.sorted l).
Proof. apply StronglySorted_merge_sort; apply _. Qed.

Lemma sorted_perm l : Py.sorted l ≡ₚ l.
Proof. apply merge_sort_Permutation. Qed.

Lemma sorted_unique l l' :
  StronglySorted String.le l' → l' ≡ₚ l → Py.sorted l = l'.
Proof.
  intros Hs Hp. apply (StronglySorted_unique String.le).
  - apply sorted_sorted.
  - done.
  - by rewrite sorted_perm.
Qed.

End file_names.

(** ** get_fileNames *)

Lemma elem_of_csv_names (fileList : list string) (file : string) :
  file ∈ csv_names fileList ↔ file ∈ fileList ∧ ∃ stem, file = stem +:+ ".csv".
Proof.
  unfold csv_names. rewrite sorted_perm, list_elem_of_filter, endswith_spec.
  tauto.
Qed.

Lemma csv_names_perm (fileList fileList' : list string) :
  fileList' ≡ₚ fileList → csv_names fileList' = csv_names fileList.
Proof.
  intros Hp. unfold csv_names. apply sorted_unique.
  - apply sorted_sorted.
  - by rewrite sorted_perm, Hp.
Qed.

Lemma filter_all_eligible (l : list string) :
  Forall (λ file, ∃ stem, file = stem +:+ ".csv") l →
  filter (λ file, Py.endswith file ".csv" = true) l = l.
Proof.
  induction 1 as [|file l Hfile _ IH]; [done|].
  rewrite filter_cons_True by by apply endswith_spec.
  by rewrite IH.
Qed.

(** C4.  Whatever [os.listdir] yields for the directory, [get_fileNames]
    returns the entries whose names end in [.csv], and only them: a name with
    any other four-character ending, such as [.CSV], is left out.  The result
    is sorted in string order and does not depend on the order of the
    listing; when the directory holds only eligible files whose sorted order
    is [a, b, c], the result is [a, b, c]. *)
Theorem get_fileNames_sorted_csv (w : world) (filePath : string) (fileList : list string) :
  listdir w filePath = OK fileList →
  ∃ fileNames,
    get_fileNames w filePath = OK fileNames
    ∧ fileNames ≡ₚ filter (λ file, Py.endswith file ".csv" = true) fileList
    ∧ (∀ file, file ∈ fileNames ↔ file ∈ fileList ∧ ∃ stem, file = stem +:+ ".csv")
    ∧ (∀ stem ext, String.length ext = 4 → ext ≠ ".csv" → stem +:+ ext ∉ fileNames)
    ∧ StronglySorted String.le fileNames
    ∧ (∀ w' fileList', listdir w' filePath = OK fileList' → fileList' ≡ₚ fileList →
         get_fileNames w' filePath = OK fileNames)
    ∧ (∀ a b c, fileList ≡ₚ [a; b; c] →
         Forall (λ file, ∃ stem, file = stem +:+ ".csv") [a; b; c] →
         StronglySorted String.le [a; b; c] →
         fileNames = [a; b; c]).
Proof.
  intros Hls. exists (csv_names fileList). unfold get_fileNames. rewrite Hls.
  split_and!.
  - done.
  - apply sorted_perm.
  - apply elem_of_csv_names.
  - intros stem ext Hlen Hext [_ [stem' Heq]]%elem_of_csv_names.
    by apply string_suffix_inj in Heq.
  - apply sorted_sorted.
  - intros w' fileList' Hls' Hp. rewrite Hls'. simpl.
    f_equal. by apply csv_names_perm.
  - intros a b c Hp Hall Hsorted. apply sorted_unique; [done|].
    by rewrite Hp, filter_all_eligible.
Qed.

Lemma get_fileNames_sorted_csv_witness :
  ∃ fileNames,
    get_fileNames sample_world "data" = OK fileNames
    ∧ StronglySorted String.le fileNames
    ∧ "b.CSV" ∉ fileNames.
Proof.
  destruct (get_fileNames_sorted_csv sample_world "data"
              ["c.csv"; "notes.txt"; "a.csv"; "b.CSV"; "b.csv"] eq_refl)
    as (fileNames & Hget & _ & _ & Hext & Hsorted & _).
  exists fileNames. split_and!; [done..|].
  by apply (Hext "b" ".CSV").
Defined.

Example get_fileNames_sample :
  get_fileNames sample_world "data" = OK ["a.csv"; "b.csv"; "c.csv"].
Proof. vm_compute. reflexivity. Qed.

(** ** Transposition and grids *)

Section transpose.
Context {A : Type}.
Implicit Types (rows : list (list A)) (n : nat).

Lemma transpose_length n rows :
  Forall (λ row, length row = n) rows → length (transpose n rows) = n.
Proof.
  induction 1 as [|row rows Hrow _ IH]; simpl.
  - apply length_replicate.
  - rewrite length_zip_with. lia.
Qed.

Lemma transpose_row_length n rows :
  Forall (λ col, length col = length rows) (transpose n rows).
Proof.
  induction rows as [|row rows IH]; simpl.
  - apply Forall_forall. by intros col [-> _]%elem_of_replicate.
  - revert row.
    induction IH as [|col cols Hcol _ IH']; intros [|x row]; simpl;
      constructor; simpl; auto.
Qed.

(** Entry [(j, i)] of the transpose is entry [(i, j)] of the matrix. *)
Lemma transpose_lookup n rows i j :
  Forall (λ row, length row = n) rows →
  transpose n rows !! j ≫= (.!! i) = rows !! i ≫= (.!! j).
Proof.
  intros Hrows. revert i. induction Hrows as [|row rows Hrow Hrows IH]; intros i; simpl.
  - destruct (decide (j < n)) as [Hj|Hj].
    + rewrite lookup_replicate_2 by done. by destruct i.
    + rewrite lookup_ge_None_2 by (rewrite length_replicate; lia). by destruct i.
  - rewrite lookup_zip_with.
    pose proof (transpose_length n rows Hrows) as Hlen.
    destruct (row !! j) as [x|] eqn:Hx; simpl.
    + destruct (transpose n rows !! j) as [col|] eqn:Hcol; simpl.
      * destruct i as [|i]; simpl; [done|]. by rewrite <- IH.
      * apply lookup_lt_Some in Hx. apply lookup_ge_None in Hcol. lia.
    + destruct i as [|i]; simpl; [done|].
      rewrite <- IH. apply lookup_ge_None in Hx.
      by rewrite (lookup_ge_None_2 (transpose n rows) j) by lia.
Qed.
End transpose.

Lemma T_rectangular {I C} (df : DataFrame I C) : rectangular df → rectangular (T df).
Proof.
  intros [Hlen Hrows]. split; simpl.
  - by apply transpose_length.
  - rewrite <- Hlen. apply transpose_row_length.
Qed.

Lemma meshgrid_array_wf {A B} (x : list A) (y : list B) :
  array_wf (meshgrid x y).1 ∧ array_wf (meshgrid x y).2.
Proof.
  unfold array_wf; simpl. split_and!.
  - apply length_replicate.
  - by apply Forall_replicate.
  - apply length_fmap.
  - apply Forall_fmap, Forall_true. intros yi. apply length_replicate.
Qed.

Lemma label_int_Some (label : string) (z : Z) :
  label_int label = Some z ↔ Py.int label = Some z ∧ in_int64 z = true.
Proof.
  unfold label_int. destruct (Py.int label) as [z'|]; [|by split; [|intros [? _]]].
  destruct (in_int64 z') eqn:Hz; split.
  - by intros [= <-].
  - by intros [[= <-] _].
  - done.
  - intros [[= <-] Htrue]. congruence.
Qed.

Lemma astype_int_length (labels : list string) (zs : list Z) :
  astype_int labels = OK zs → length zs = length labels.
Proof.
  revert zs. induction labels as [|s labels IH]; intros zs; simpl.
  - by intros [= <-].
  - destruct (Py.int s) as [z|]; [|done].
    destruct (in_int64 z); [|done].
    destruct (astype_int labels) as [zs'|]; [|done].
    intros [= <-]. simpl. by rewrite (IH zs').
Qed.

Lemma astype_int_OK (labels : list string) :
  Forall (λ label, is_Some (label_int label)) labels →
  ∃ zs, astype_int labels = OK zs
        ∧ Some <$> zs = Py.int <$> labels
        ∧ Forall (λ z, in_int64 z = true) zs.
Proof.
  induction 1 as [|s labels [z [Hz Hrange]%label_int_Some] _ (zs & IH & Hzs & Hall)].
  - by exists [].
  - exists (z :: zs). split_and!.
    + simpl. by rewrite Hz, Hrange, IH.
    + csimpl. by rewrite Hz, Hzs.
    + by constructor.
Qed.

Lemma astype_int_Raise (labels : list string) :
  Exists (λ label, label_int label = None) labels →
  ∃ label,
    label ∈ labels
    ∧ ((Py.int label = None ∧ astype_int labels = Raise (ValueError_int label))
       ∨ (∃ z, Py.int label = Some z ∧ in_int64 z = false
               ∧ astype_int labels = Raise (OverflowError_int label))).
Proof.
  induction 1 as [s labels Hs|s labels _ (label & Hin & IH)]; simpl.
  - exists s. split; [left|]. unfold label_int in Hs.
    destruct (Py.int s) as [z|]; [|by left].
    destruct (in_int64 z) eqn:Hz; [done|]. right. by exists z.
  - destruct (Py.int s) as [z|] eqn:Hs.
    + destruct (in_int64 z) eqn:Hz.
      * exists label. split; [by right|].
        destruct IH as [[Hnone ->]|(z' & Hz' & Hrange & ->)]; [by left|].
        right. by exists z'.
      * exists s. split; [left|]. right. by exists z.
    + exists s. split; [left|]. by left.
Qed.

(** ** get_XYZ *)

Lemma get_XYZ_OK (w : world) (filePath fileName : string)
    (raw : DataFrame cell string) (y : list Z) :
  read_csv w (Py.path_join filePath fileName) = OK raw →
  astype_int (columns raw) = OK y →
  get_XYZ w filePath fileName
  = OK ((meshgrid (index raw) y).1, (meshgrid (index raw) y).2, T raw).
Proof. intros Hread Hy. unfold get_XYZ. rewrite Hread. simpl. by rewrite Hy. Qed.

Ltac solve_well_formed :=
  repeat match goal with
         | |- well_formed _ => unfold well_formed; simpl
         | |- rectangular _ => unfold rectangular; simpl
         | |- _ ∧ _ => split
         | |- Forall _ _ => constructor
         | |- is_Some _ => by eexists
         | |- _ = _ => reflexivity
         end.

(** C1 (as amended).  For the table with excitation headers 300, 310, 320
    and emission index 350, 360, whatever its six cells, [get_XYZ] returns
    X, Y and Z each of shape (3, 2): Z is the transpose of the raw table, so
    its row 0 holds the excitation-300 readings across the two emissions;
    every row of X is the emission sequence and row [i] of Y repeats the
    [i]-th excitation wavelength. *)
Theorem get_XYZ_example (w : world) (filePath fileName : string)
    (c11 c12 c13 c21 c22 c23 : cell) :
  read_csv w (Py.path_join filePath fileName) = OK (eem_table c11 c12 c13 c21 c22 c23) →
  get_XYZ w filePath fileName
  = OK (mkArray (3, 2) [[Num 350; Num 360]; [Num 350; Num 360]; [Num 350; Num 360]],
        mkArray (3, 2) [[300; 300]; [310; 310]; [320; 320]]%Z,
        mkDataFrame ["300"; "310"; "320"] [Num 350; Num 360]
          [[c11; c21]; [c12; c22]; [c13; c23]]).
Proof. intros Hread. by rewrite (get_XYZ_OK _ _ _ _ [300; 310; 320]%Z Hread). Qed.

Lemma get_XYZ_example_witness :
  get_XYZ sample_world "data" "a.csv"
  = OK (mkArray (3, 2) [[Num 350; Num 360]; [Num 350; Num 360]; [Num 350; Num 360]],
        mkArray (3, 2) [[300; 300]; [310; 310]; [320; 320]]%Z,
        mkDataFrame ["300"; "310"; "320"] [Num 350; Num 360]
          [[Num 110; Num 210]; [Num 120; Num 437]; [Num 130; Num 230]]).
Proof. apply get_XYZ_example. reflexivity. Defined.

(** C1 as stated fails on the sample file: no result of shape (2, 3) whose
    row 0 is the emission-350 row of the raw table comes back. *)
Lemma get_XYZ_sample_not_2_by_3 :
  ¬ ∃ X Y Zm,
      get_XYZ sample_world "data" "a.csv" = OK (X, Y, Zm)
      ∧ shape X = (2, 3) ∧ shape Y = (2, 3) ∧ df_shape Zm = (2, 3)
      ∧ values Zm !! 0 = Some [Num 110; Num 120; Num 130].
Proof. intros (X & Y & Zm & [= <- <- <-] & HX & _). discriminate HX. Qed.

(** C2 (as amended).  For every well-formed table, the transposed table has
    the excitation wavelengths (the header labels) as its index and the
    emission wavelengths (the first column) as its columns; y is the index
    converted to integers.  Every row of X is the emission sequence, row [i]
    of Y repeats the [i]-th excitation wavelength, and both grids have the
    shape of the transposed table, (number of excitations, number of
    emissions). *)
Theorem get_XYZ_axes (w : world) (filePath fileName : string) (raw : DataFrame cell string) :
  read_csv w (Py.path_join filePath fileName) = OK raw →
  well_formed raw →
  ∃ X Y Zm excitation,
    get_XYZ w filePath fileName = OK (X, Y, Zm)
    ∧ Some <$> excitation = Py.int <$> columns raw
    ∧ index Zm = columns raw
    ∧ columns Zm = index raw
    ∧ (∀ i j, values Zm !! i ≫= (.!! j) = values raw !! j ≫= (.!! i))
    ∧ data X = replicate (length excitation) (index raw)
    ∧ data Y = (λ e, replicate (length (index raw)) e) <$> excitation
    ∧ shape X = df_shape Zm ∧ shape Y = df_shape Zm
    ∧ df_shape Zm = (length (columns raw), length (index raw)).
Proof.
  intros Hread ([_ Hrows] & Hlabels & _).
  destruct (astype_int_OK _ Hlabels) as (y & Hy & Hint & _).
  pose proof (astype_int_length _ _ Hy) as Hlen.
  exists (meshgrid (index raw) y).1, (meshgrid (index raw) y).2, (T raw), y.
  split_and!; try done.
  - by apply get_XYZ_OK.
  - intros i j. simpl. by apply transpose_lookup.
  - unfold df_shape. simpl. by rewrite Hlen.
  - unfold df_shape. simpl. by rewrite Hlen.
Qed.

Lemma get_XYZ_axes_witness :
  ∃ X Y Zm,
    get_XYZ sample_world "data" "a.csv" = OK (X, Y, Zm)
    ∧ index Zm = ["300"; "310"; "320"]
    ∧ columns Zm = [Num 350; Num 360].
Proof.
  destruct (get_XYZ_axes sample_world "data" "a.csv" sample_table)
    as (X & Y & Zm & excitation & Hget & _ & Hindex & Hcolumns & _).
  - reflexivity.
  - solve_well_formed.
  - by exists X, Y, Zm.
Defined.

(** C2 as stated fails on the sample file: the columns of the transposed
    table and the rows of X are not the excitation sequence, and Y does not
    run through the emission sequence. *)
Lemma get_XYZ_sample_axes_not_swapped :
  ¬ ∃ X Y Zm,
      get_XYZ sample_world "data" "a.csv" = OK (X, Y, Zm)
      ∧ columns Zm = [Num 300; Num 310; Num 320]
      ∧ Forall (λ row, row = [Num 300; Num 310; Num 320]) (data X)
      ∧ data Y = [[350; 350; 350]; [360; 360; 360]]%Z.
Proof. intros (X & Y & Zm & [= <- <- <-] & Hcolumns & _). discriminate Hcolumns. Qed.

(** C6.  For every well-formed input file [get_XYZ] returns X, Y and Z of
    one and the same shape, and the data of each fills that shape. *)
Theorem get_XYZ_shapes_agree (w : world) (filePath fileName : string)
    (raw : DataFrame cell string) :
  read_csv w (Py.path_join filePath fileName) = OK raw →
  well_formed raw →
  ∃ X Y Zm,
    get_XYZ w filePath fileName = OK (X, Y, Zm)
    ∧ shape X = shape Y ∧ shape Y = df_shape Zm
    ∧ array_wf X ∧ array_wf Y ∧ rectangular Zm.
Proof.
  intros Hread (Hrect & Hlabels & _).
  destruct (astype_int_OK _ Hlabels) as (y & Hy & _).
  pose proof (astype_int_length _ _ Hy) as Hlen.
  exists (meshgrid (index raw) y).1, (meshgrid (index raw) y).2, (T raw).
  split_and!.
  - by apply get_XYZ_OK.
  - done.
  - unfold df_shape. simpl. by rewrite Hlen.
  - apply meshgrid_array_wf.
  - apply meshgrid_array_wf.
  - by apply T_rectangular.
Qed.

Lemma get_XYZ_shapes_agree_witness :
  ∃ X Y Zm,
    get_XYZ sample_world "data" "a.csv" = OK (X, Y, Zm)
    ∧ shape X = shape Y ∧ shape Y = df_shape Zm.
Proof.
  destruct (get_XYZ_shapes_agree sample_world "data" "a.csv" sample_table)
    as (X & Y & Zm & Hget & HXY & HYZ & _).
  - reflexivity.
  - solve_well_formed.
  - by exists X, Y, Zm.
Defined.

(** The shapes agree whenever [get_XYZ] returns at all. *)
Lemma get_XYZ_shapes (w : world) (filePath fileName : string) X Y Zm :
  get_XYZ w filePath fileName = OK (X, Y, Zm) →
  shape X = df_shape Zm ∧ shape Y = df_shape Zm.
Proof.
  unfold get_XYZ. destruct (read_csv _ _) as [raw|]; [simpl|done].
  destruct (astype_int _) as [y|] eqn:Hy; [simpl|done].
  intros [= <- <- <-]. unfold df_shape. simpl.
  by rewrite (astype_int_length _ _ Hy).
Qed.

(** C8 (as amended).  [get_XYZ] fails when the file cannot be read as a
    table, with the error of the reader, and when a label of the header row
    does not convert to an integer: with the [ValueError] of [int()] for a
    label that is no integer literal, with an [OverflowError] for one that
    does not fit [int64] (stated for ASCII labels).  When the table is read
    and every header label converts, it returns, whatever the cells and the
    labels of the first column are: a field that pandas kept as text is
    passed on as text. *)
Theorem get_XYZ_failures (w : world) (filePath fileName : string) :
  (∀ e, read_csv w (Py.path_join filePath fileName) = Raise e →
        get_XYZ w filePath fileName = Raise e)
  ∧ (∀ raw, read_csv w (Py.path_join filePath fileName) = OK raw →
        Forall (λ label, Py.is_ascii label = true) (columns raw) →
        Exists (λ label, label_int label = None) (columns raw) →
        ∃ label,
          label ∈ columns raw
          ∧ ((Py.int label = None
              ∧ get_XYZ w filePath fileName = Raise (ValueError_int label))
             ∨ (∃ z, Py.int label = Some z ∧ in_int64 z = false
                     ∧ get_XYZ w filePath fileName = Raise (OverflowError_int label))))
  ∧ (∀ raw, read_csv w (Py.path_join filePath fileName) = OK raw →
        Forall (λ label, is_Some (label_int label)) (columns raw) →
        ∃ X Y, get_XYZ w filePath fileName = OK (X, Y, T raw)).
Proof.
  split_and!.
  - intros e Hread. unfold get_XYZ. by rewrite Hread.
  - intros raw Hread _ (label & Hin & Hraise)%astype_int_Raise.
    exists label. split; [done|].
    unfold get_XYZ. rewrite Hread. simpl.
    destruct Hraise as [[Hnone ->]|(z & Hz & Hrange & ->)]; [by left|].
    right. by exists z.
  - intros raw Hread (y & Hy & _)%astype_int_OK.
    eexists _, _. by apply get_XYZ_OK.
Qed.

Lemma get_XYZ_failures_witness :
  get_XYZ sample_world "data" "missing.csv" = Raise (OSError "data/missing.csv")
  ∧ (∃ label,
       label ∈ ["300"; "310.5"; "320"]
       ∧ ((Py.int label = None
           ∧ get_XYZ decimal_world "data" "s.csv" = Raise (ValueError_int label))
          ∨ (∃ z, Py.int label = Some z ∧ in_int64 z = false
                  ∧ get_XYZ decimal_world "data" "s.csv"
                    = Raise (OverflowError_int label)))).
Proof.
  split.
  - apply (get_XYZ_failures sample_world "data" "missing.csv"). reflexivity.
  - destruct (get_XYZ_failures decimal_world "data" "s.csv") as (_ & Hlabel & _).
    apply (Hlabel decimal_table).
    + reflexivity.
    + by repeat constructor.
    + right. by left.
Defined.

(** C8 as stated fails: a reading that is text and first-column labels that
    are no integers both come back in the result, without an error. *)
Lemma get_XYZ_keeps_text :
  (∃ X Y, get_XYZ sample_world "data" "b.csv"
          = OK (X, Y, mkDataFrame ["300"; "310"; "320"] [Num 350; Num 360]
                        [[Num 110; Num 210]; [Str "abc"; Str "437"]; [Num 130; Num 230]]))
  ∧ (∃ Y Zm, get_XYZ labelled_world "data" "t.csv"
             = OK (mkArray (3, 2) (replicate 3 [Str "em350"; Str "em360"]), Y, Zm))
  ∧ ¬ (∃ e, get_XYZ sample_world "data" "b.csv" = Raise e)
  ∧ ¬ (∃ e, get_XYZ labelled_world "data" "t.csv" = Raise e).
Proof.
  split_and!; [eexists _, _; reflexivity..| |]; by intros [e He].
Qed.

(** ** The maximum of the surface *)

Lemma matrix_max_unique (zs : list (list Z)) (m m' : Z) :
  matrix_max zs m → matrix_max zs m' → m = m'.
Proof.
  intros [(row & Hrow & Hm) Hle] [(row' & Hrow' & Hm') Hle'].
  apply Z.le_antisymm; eauto.
Qed.

Lemma foldl_max_spec (l : list Z) (z : Z) :
  foldl Z.max z l ∈ z :: l ∧ ∀ x, x ∈ z :: l → (x ≤ foldl Z.max z l)%Z.
Proof.
  revert z. induction l as [|y l IH]; intros z; simpl.
  - split; [left|]. by intros x ->%list_elem_of_singleton.
  - destruct (IH (Z.max z y)) as [Hin Hle]. split.
    + apply elem_of_cons in Hin as [Hin|Hin]; [|by do 2 right].
      rewrite Hin. destruct (Z.max_spec z y) as [[_ ->]|[_ ->]]; [right|]; left.
    + assert (Z.max z y ≤ foldl Z.max (Z.max z y) l)%Z as Hzy by (apply Hle; left).
      intros x [Hx|[Hx|Hx]%elem_of_cons]%elem_of_cons.
      * lia.
      * lia.
      * apply Hle. by right.
Qed.

(** Folding the rows with the pointwise maximum yields, in each column, an
    entry of that column that bounds the column. *)
Lemma column_max_spec (n : nat) (rows : list (list Z)) (acc : list Z) :
  length acc = n →
  Forall (λ row, length row = n) rows →
  length (foldl (zip_with Z.max) acc rows) = n ∧
  ∀ j c, foldl (zip_with Z.max) acc rows !! j = Some c →
    (∃ row, row ∈ acc :: rows ∧ row !! j = Some c) ∧
    (∀ row v, row ∈ acc :: rows → row !! j = Some v → (v ≤ c)%Z).
Proof.
  intros Hacc Hrows. revert acc Hacc.
  induction Hrows as [|r rows Hr _ IH]; intros acc Hacc; simpl.
  - split; [done|]. intros j c Hc. split.
    + exists acc. split; [left|done].
    + intros row v ->%list_elem_of_singleton Hv. by simplify_eq.
  - destruct (IH (zip_with Z.max acc r)) as [Hlen Hcols].
    { rewrite length_zip_with. lia. }
    split; [done|]. intros j c Hc.
    destruct (Hcols j c Hc) as [(row & Hrow & Hrowj) Hle]. split.
    + apply elem_of_cons in Hrow as [->|Hrow].
      * apply lookup_zip_with_Some in Hrowj as (a & b & -> & Ha & Hb).
        destruct (Z.max_spec a b) as [[_ ->]|[_ ->]].
        -- exists r. split; [right; left|done].
        -- exists acc. split; [left|done].
      * exists row. split; [by do 2 right|done].
    + clear row Hrow Hrowj. intros row v Hin Hv.
      assert (j < n) as Hj.
      { apply lookup_lt_Some in Hc. lia. }
      destruct (lookup_lt_is_Some_2 acc j) as [a Ha]; [lia|].
      destruct (lookup_lt_is_Some_2 r j) as [b Hb]; [lia|].
      assert (Z.max a b ≤ c)%Z as Hab.
      { apply (Hle (zip_with Z.max acc r)); [left|].
        apply lookup_zip_with_Some. eauto. }
      apply elem_of_cons in Hin as [->|[->|Hin]%elem_of_cons].
      * simplify_eq. lia.
      * simplify_eq. lia.
      * apply (Hle row); [by right|done].
Qed.

Lemma py_max_DataFrame_max (n : nat) (zs : list (list Z)) :
  zs ≠ [] → 0 < n → Forall (λ row, length row = n) zs →
  ∃ m, py_max (DataFrame_max zs) = OK m ∧ matrix_max zs m.
Proof.
  intros Hne Hn Hrows. destruct zs as [|row rows]; [done|]. simpl.
  apply Forall_cons in Hrows as [Hrow Hrows].
  destruct (column_max_spec n rows row Hrow Hrows) as [Hlen Hcols].
  destruct (foldl (zip_with Z.max) row rows) as [|c cs] eqn:Hfold; simpl in *; [lia|].
  exists (foldl Z.max c cs). split; [done|].
  destruct (foldl_max_spec cs c) as [Hin Hle]. split.
  - apply list_elem_of_lookup in Hin as [j Hj].
    destruct (Hcols j _ Hj) as [(r & Hr & Hrj) _].
    exists r. split; [done|]. by eapply list_elem_of_lookup_2.
  - intros r v Hr [j Hj]%list_elem_of_lookup.
    assert (is_Some ((c :: cs) !! j)) as [cj Hcj].
    { apply lookup_lt_is_Some. apply lookup_lt_Some in Hj.
      assert (length r = n); [|simpl; lia].
      apply elem_of_cons in Hr as [->|Hr]; [done|].
      by eapply (proj1 (Forall_forall _ _) Hrows). }
    destruct (Hcols j cj Hcj) as [_ Hbound].
    etrans; [by eapply Hbound|]. apply Hle. by eapply list_elem_of_lookup_2.
Qed.

Lemma as_numbers_rows (rows : list (list cell)) (zs : list (list Z)) (n : nat) :
  as_numbers rows = Some zs →
  Forall (λ row, length row = n) rows →
  length zs = length rows ∧ Forall (λ row, length row = n) zs.
Proof.
  unfold as_numbers. intros Hzs%mapM_Some Hrows. split.
  - symmetry. by eapply Forall2_length.
  - induction Hzs as [|row z rows zs Hz _ IH]; [done|].
    apply Forall_cons in Hrows as [Hrow Hrows].
    constructor; [|by apply IH].
    apply length_mapM in Hz. lia.
Qed.

Lemma contourf_OK (X : ndarray cell) (Y : ndarray Z) (Zm : DataFrame string cell)
    (cs : list (list Z)) :
  contourf X Y Zm = OK cs →
  as_numbers (values Zm) = Some cs
  ∧ 2 ≤ length (index Zm) ∧ 2 ≤ length (columns Zm)
  ∧ shape X = df_shape Zm ∧ shape Y = df_shape Zm.
Proof.
  unfold contourf.
  destruct (as_numbers (data X)); [|done].
  destruct (as_numbers (values Zm)); [|done].
  destruct (_ && _) eqn:Hchecks; [|done]. intros [= <-].
  rewrite !andb_true_iff, !Nat.leb_le, !bool_decide_eq_true in Hchecks.
  unfold df_shape in Hchecks at 1 2. simpl in Hchecks. tauto.
Qed.

(** The surface that [contourf] accepts has a largest entry, and that is
    what [max(Z.max())] evaluates to. *)
Lemma surface_max (X : ndarray cell) (Y : ndarray Z) (Zm : DataFrame string cell)
    (cs : list (list Z)) :
  rectangular Zm → contourf X Y Zm = OK cs →
  ∃ m, py_max (DataFrame_max cs) = OK m ∧ matrix_max cs m.
Proof.
  intros [Hlen Hrows] (Hcs & Hindex & Hcolumns & _)%contourf_OK.
  destruct (as_numbers_rows _ _ _ Hcs Hrows) as [Hlen' Hrows'].
  apply (py_max_DataFrame_max (length (columns Zm))); [|lia|done].
  intros ->. simpl in Hlen'. lia.
Qed.

(** ** Rounding and the colorbar ticks *)

Section ticks.
Local Open Scope Z_scope.

(** [round(m, -2)] is the multiple of 100 nearest to [m]; of two that are
    equally near it is the even one. *)
Lemma round_hundreds_nearest (m : Z) :
  ∃ k, round_hundreds m = 100 * k
       ∧ m - 50 ≤ round_hundreds m ≤ m + 50
       ∧ (Z.abs (round_hundreds m - m) = 50 → Z.even k = true).
Proof.
  unfold round_hundreds.
  pose proof (Z.div_mod m 100 ltac:(lia)) as Hm.
  pose proof (Z.mod_pos_bound m 100 ltac:(lia)) as Hr.
  set (q := m / 100) in *. set (r := m mod 100) in *.
  destruct (r <? 50) eqn:Hlt; [apply Z.ltb_lt in Hlt|apply Z.ltb_ge in Hlt].
  { exists q. split_and!; lia. }
  destruct (50 <? r) eqn:Hgt; [apply Z.ltb_lt in Hgt|apply Z.ltb_ge in Hgt].
  { exists (q + 1). split_and!; lia. }
  destruct (Z.even q) eqn:Heven.
  - exists q. split_and!; [lia..|done].
  - exists (q + 1). split_and!; [lia..|].
    intros _. by rewrite Z.even_add, Heven.
Qed.

Lemma round_hundreds_zero (m : Z) : round_hundreds m = 0 ↔ -50 ≤ m ≤ 50.
Proof.
  split.
  - intros H0. destruct (round_hundreds_nearest m) as (k & _ & Hnear & _). lia.
  - intros Hm. unfold round_hundreds.
    pose proof (Z.div_mod m 100 ltac:(lia)) as Hdm.
    pose proof (Z.mod_pos_bound m 100 ltac:(lia)) as Hr.
    set (q := m / 100) in *. set (r := m mod 100) in *.
    assert (q = 0 ∨ q = -1) as Hq by lia.
    destruct (r <? 50) eqn:Hlt; [apply Z.ltb_lt in Hlt|apply Z.ltb_ge in Hlt].
    { lia. }
    destruct (50 <? r) eqn:Hgt; [apply Z.ltb_lt in Hgt|apply Z.ltb_ge in Hgt].
    { lia. }
    destruct Hq as [-> | ->]; reflexivity.
Qed.

Lemma round_hundreds_positive (m : Z) : 50 < m → 100 ≤ round_hundreds m.
Proof.
  intros Hm. destruct (round_hundreds_nearest m) as (k & Hk & Hnear & _).
  assert (round_hundreds m ≠ 0) by (rewrite round_hundreds_zero; lia). lia.
Qed.

(** The true division [maxZ / 5] of the source has no remainder. *)
Lemma round_hundreds_fifth (m : Z) : 5 * (round_hundreds m / 5) = round_hundreds m.
Proof.
  destruct (round_hundreds_nearest m) as (k & -> & _).
  replace (100 * k) with (20 * k * 5) by lia. rewrite Z.div_mul by done. lia.
Qed.

(** With a positive step [k], [np.arange(0, 5k + 1, k)] has six entries. *)
Lemma np_arange_six (k : Z) :
  1 < k → np_arange 0 (5 * k + 1) k = OK [0; k; 2 * k; 3 * k; 4 * k; 5 * k].
Proof.
  intros Hk. unfold np_arange.
  destruct (k =? 0) eqn:Hk0; [apply Z.eqb_eq in Hk0; lia|].
  replace (- (5 * k + 1 - 0) / k) with (-6).
  - simpl. f_equal. repeat (apply (f_equal2 cons); [lia|]). done.
  - apply (Z.div_unique _ _ _ (k - 1)); lia.
Qed.

Lemma colorbar_ticks_six (m : Z) :
  50 < m →
  colorbar_ticks m
  = OK [0; round_hundreds m / 5; 2 * (round_hundreds m / 5);
        3 * (round_hundreds m / 5); 4 * (round_hundreds m / 5); round_hundreds m].
Proof.
  intros Hm. unfold colorbar_ticks.
  pose proof (round_hundreds_positive m Hm) as Hpos.
  pose proof (round_hundreds_fifth m) as Hfifth.
  rewrite <- Hfifth at 1. rewrite np_arange_six by lia.
  by rewrite Hfifth.
Qed.

Lemma colorbar_ticks_zero (m : Z) : -50 ≤ m ≤ 50 → colorbar_ticks m = Raise ArangeError.
Proof.
  intros Hm%round_hundreds_zero. unfold colorbar_ticks. by rewrite Hm.
Qed.

End ticks.

(** ** plot_contour *)

Lemma matrix_max_alt (zs : list (list Z)) (m : Z) :
  matrix_max zs m ↔
  Exists (λ row, m ∈ row) zs ∧ Forall (Forall (λ z, (z ≤ m)%Z)) zs.
Proof.
  unfold matrix_max. split.
  - intros [(row & Hrow & Hm) Hle]. split.
    + apply Exists_exists. eauto.
    + apply Forall_forall. intros r Hr. apply Forall_forall. eauto.
  - intros [(row & Hrow & Hm)%Exists_exists Hle]. split; [eauto|].
    intros r z Hr Hz. rewrite Forall_forall in Hle. specialize (Hle r Hr).
    rewrite Forall_forall in Hle. eauto.
Qed.

Ltac solve_matrix_max :=
  apply matrix_max_alt; split;
  [ repeat first [ by (apply Exists_cons_hd; set_solver) | apply Exists_cons_tl ]
  | repeat constructor; lia ].

Lemma plot_contour_with_max (X : ndarray cell) (Y : ndarray Z)
    (Zm : DataFrame string cell) (filePath fileName outFormat : string) (w : world)
    (cs : list (list Z)) (m : Z) :
  rectangular Zm → contourf X Y Zm = OK cs → matrix_max cs m →
  plot_contour X Y Zm filePath fileName outFormat w
  = ticks ← colorbar_ticks m;
    savefig (contour_figure cs ticks) (out_path filePath fileName outFormat) w.
Proof.
  intros Hrect Hcs Hm. unfold plot_contour. rewrite Hcs. simpl.
  destruct (surface_max X Y Zm cs Hrect Hcs) as (m' & -> & Hm'). simpl.
  by rewrite (matrix_max_unique cs m m').
Qed.

Lemma colorbar_ticks_OK (m : Z) :
  ¬ (-50 ≤ m ≤ 50)%Z → ∃ ticks, colorbar_ticks m = OK ticks.
Proof.
  intros Hm. unfold colorbar_ticks, np_arange.
  pose proof (round_hundreds_fifth m) as Hfifth.
  pose proof (round_hundreds_zero m) as Hzero.
  destruct (round_hundreds m / 5 =? 0)%Z eqn:Hstep; [|by eexists].
  apply Z.eqb_eq in Hstep. lia.
Qed.

(** When the largest entry rounds to 0 the tick step is 0 and the call
    raises before [savefig] is reached. *)
Lemma plot_contour_rounds_to_zero (X : ndarray cell) (Y : ndarray Z)
    (Zm : DataFrame string cell) (filePath fileName outFormat : string) (w : world)
    (cs : list (list Z)) (m : Z) :
  rectangular Zm → as_numbers (values Zm) = Some cs → matrix_max cs m →
  (-50 ≤ m ≤ 50)%Z →
  (contourf X Y Zm = OK cs →
     plot_contour X Y Zm filePath fileName outFormat w = Raise ArangeError)
  ∧ (plot_contour X Y Zm filePath fileName outFormat w = Raise ArangeError
     ∨ plot_contour X Y Zm filePath fileName outFormat w = Raise ContourError).
Proof.
  intros Hrect Hnum Hmax Hm.
  assert (contourf X Y Zm = OK cs →
          plot_contour X Y Zm filePath fileName outFormat w = Raise ArangeError) as Hzero.
  { intros Hcs. rewrite (plot_contour_with_max _ _ _ _ _ _ _ cs m) by done.
    by rewrite colorbar_ticks_zero. }
  split; [done|].
  destruct (contourf X Y Zm) as [cs'|e] eqn:Hcs.
  - left. apply Hzero. apply contourf_OK in Hcs as [Hcs' _]. congruence.
  - right. unfold plot_contour. rewrite Hcs. simpl. f_equal.
    unfold contourf in Hcs. repeat case_match; congruence.
Qed.

(** C3 (as amended).  For a surface of whole-number readings with largest
    entry [m] above 50 and below 2^52, [plot_contour] takes for [maxZ] the
    multiple of 100 nearest to [m] (of two equally near, the even hundred)
    and saves a figure with the six colorbar ticks 0, maxZ/5, ..., maxZ.
    For [m = 437] that is [maxZ = 400] and the ticks 0, 80, 160, 240, 320,
    400. *)
Theorem plot_contour_ticks (X : ndarray cell) (Y : ndarray Z)
    (Zm : DataFrame string cell) (filePath fileName outFormat : string) (w : world)
    (cs : list (list Z)) (m : Z) :
  rectangular Zm → contourf X Y Zm = OK cs → matrix_max cs m →
  (50 < m < 2 ^ 52)%Z →
  can_save w (saved_path filePath fileName outFormat) = true →
  ∃ maxZ k : Z,
    maxZ = round_hundreds m
    ∧ (maxZ = 100 * k ∧ m - 50 ≤ maxZ ≤ m + 50
       ∧ (Z.abs (maxZ - m) = 50 → Z.even k = true))%Z
    ∧ (5 * (maxZ / 5) = maxZ)%Z
    ∧ plot_contour X Y Zm filePath fileName outFormat w
      = OK (write_file (saved_path filePath fileName outFormat)
              (ImageFile (contour_figure cs
                 [0; maxZ / 5; 2 * (maxZ / 5); 3 * (maxZ / 5); 4 * (maxZ / 5); maxZ]%Z))
              w)
    ∧ (m = 437%Z →
       maxZ = 400%Z
       ∧ [0; maxZ / 5; 2 * (maxZ / 5); 3 * (maxZ / 5); 4 * (maxZ / 5); maxZ]%Z
         = [0; 80; 160; 240; 320; 400]%Z).
Proof.
  intros Hrect Hcs Hmax [Hm _] Hsave.
  destruct (round_hundreds_nearest m) as (k & Hk & Hnear & Htie).
  exists (round_hundreds m), k.
  split; [done|]. split; [done|]. split; [apply round_hundreds_fifth|]. split.
  - rewrite (plot_contour_with_max _ _ _ _ _ _ _ cs m) by done.
    rewrite colorbar_ticks_six by done. simpl.
    unfold savefig. fold (out_path filePath fileName outFormat).
    fold (saved_path filePath fileName outFormat). by rewrite Hsave.
  - by intros ->.
Qed.

Lemma plot_contour_ticks_witness :
  plot_contour sample_X sample_Y (T sample_table) "data" "s.csv" "png"
    (one_file_world sample_table)
  = OK (write_file "data/s.png"
          (ImageFile (contour_figure [[110; 210]; [120; 437]; [130; 230]]%Z
                        [0; 80; 160; 240; 320; 400]%Z))
          (one_file_world sample_table)).
Proof.
  destruct (plot_contour_ticks sample_X sample_Y (T sample_table) "data" "s.csv" "png"
              (one_file_world sample_table) [[110; 210]; [120; 437]; [130; 230]]%Z 437%Z)
    as (maxZ & k & _ & _ & _ & Hplot & Hexample).
  - solve_well_formed.
  - reflexivity.
  - solve_matrix_max.
  - lia.
  - reflexivity.
  - destruct Hexample as [_ Hticks]; [done|]. by rewrite <- Hticks.
Defined.

(** C3 as stated fails for a surface with largest entry 487: [maxZ] is 500,
    not 487 rounded down to 400, and the ticks run up to 500. *)
Lemma plot_contour_rounds_up :
  matrix_max [[110; 210]; [120; 487]; [130; 230]]%Z 487%Z
  ∧ plot_contour sample_X sample_Y (T bright_table) "data" "s.csv" "png"
      (one_file_world bright_table)
    = OK (write_file "data/s.png"
            (ImageFile (contour_figure [[110; 210]; [120; 487]; [130; 230]]%Z
                          [0; 100; 200; 300; 400; 500]%Z))
            (one_file_world bright_table))
  ∧ round_hundreds 487 = 500%Z
  ∧ round_hundreds 487 ≠ (100 * (487 / 100))%Z.
Proof. split_and!; [solve_matrix_max|reflexivity|reflexivity|done]. Qed.

(** C7 (as amended).  When the largest entry of the surface rounds to 0 at
    the hundreds, that is when it lies between -50 and 50, and in particular
    when it is 0, [plot_contour] raises and writes nothing: the error is that
    of the zero tick step, unless [contourf] has refused the arguments
    before. *)
Theorem plot_contour_zero_max_raises (X : ndarray cell) (Y : ndarray Z)
    (Zm : DataFrame string cell) (filePath fileName outFormat : string) (w : world)
    (cs : list (list Z)) (m : Z) :
  rectangular Zm → as_numbers (values Zm) = Some cs → matrix_max cs m →
  (-50 ≤ m ≤ 50)%Z →
  plot_contour X Y Zm filePath fileName outFormat w = Raise ArangeError
  ∨ plot_contour X Y Zm filePath fileName outFormat w = Raise ContourError.
Proof. intros. by eapply plot_contour_rounds_to_zero. Qed.

Lemma plot_contour_zero_max_raises_witness :
  plot_contour sample_X sample_Y (T dark_table) "data" "s.csv" "png"
    (one_file_world dark_table) = Raise ArangeError
  ∨ plot_contour sample_X sample_Y (T dark_table) "data" "s.csv" "png"
      (one_file_world dark_table) = Raise ContourError.
Proof.
  apply (plot_contour_zero_max_raises _ _ _ _ _ _ _
           [[-3; -4]; [-2; 0]; [-1; -6]]%Z 0%Z).
  - solve_well_formed.
  - reflexivity.
  - solve_matrix_max.
  - lia.
Defined.

(** C7 as stated fails for a surface whose entries are all negative, with
    largest entry -437: the ticks are 0, -80, ..., -320 and the image is
    written. *)
Lemma plot_contour_negative_max_writes :
  matrix_max [[-437; -700]; [-500; -800]; [-600; -900]]%Z (-437)%Z
  ∧ plot_contour sample_X sample_Y (T negative_table) "data" "s.csv" "png"
      (one_file_world negative_table)
    = OK (write_file "data/s.png"
            (ImageFile (contour_figure [[-437; -700]; [-500; -800]; [-600; -900]]%Z
                          [0; -80; -160; -240; -320]%Z))
            (one_file_world negative_table)).
Proof. split; [solve_matrix_max|reflexivity]. Qed.

(** C10.  When the largest entry of the surface is positive but below 50,
    [maxZ] is 0, so the tick step [maxZ / 5] is 0 and [plot_contour] raises
    before anything is written. *)
Theorem plot_contour_small_max_raises (X : ndarray cell) (Y : ndarray Z)
    (Zm : DataFrame string cell) (filePath fileName outFormat : string) (w : world)
    (cs : list (list Z)) (m : Z) :
  rectangular Zm → as_numbers (values Zm) = Some cs → matrix_max cs m →
  (0 < m < 50)%Z →
  round_hundreds m = 0%Z
  ∧ (round_hundreds m / 5 = 0)%Z
  ∧ (contourf X Y Zm = OK cs →
       plot_contour X Y Zm filePath fileName outFormat w = Raise ArangeError)
  ∧ (plot_contour X Y Zm filePath fileName outFormat w = Raise ArangeError
     ∨ plot_contour X Y Zm filePath fileName outFormat w = Raise ContourError).
Proof.
  intros Hrect Hnum Hmax Hm.
  assert (round_hundreds m = 0%Z) as Hzero by (apply round_hundreds_zero; lia).
  split; [done|]. split; [by rewrite Hzero|].
  apply (plot_contour_rounds_to_zero _ _ _ _ _ _ _ cs m); [done..|lia].
Qed.

Lemma plot_contour_small_max_raises_witness :
  plot_contour sample_X sample_Y (T faint_table) "data" "s.csv" "png"
    (one_file_world faint_table) = Raise ArangeError.
Proof.
  apply (plot_contour_small_max_raises _ _ _ _ _ _ _
           [[11; 21]; [12; 37]; [13; 23]]%Z 37%Z).
  - solve_well_formed.
  - reflexivity.
  - solve_matrix_max.
  - lia.
  - reflexivity.
Defined.

(** C9 (as amended).  For an input name [stem.csv] whose stem has a
    character other than a dot, and a format that is a bare extension which
    [savefig] can write, a figure that renders is saved at [stem.<format>]
    in the directory of the input: the input path and the output path differ
    in the extension only.  The file written replaces whatever the path
    held, and no other path changes. *)
Theorem plot_contour_output_path (X : ndarray cell) (Y : ndarray Z)
    (Zm : DataFrame string cell) (filePath stem outFormat : string) (w : world)
    (cs : list (list Z)) (m : Z) :
  plain_stem stem = true → plain_format outFormat = true →
  rectangular Zm → contourf X Y Zm = OK cs → matrix_max cs m →
  ¬ (-50 ≤ m ≤ 50)%Z → (Z.abs m < 2 ^ 52)%Z →
  can_save w (Py.path_join filePath stem +:+ "." +:+ outFormat) = true →
  ∃ ticks w',
    plot_contour X Y Zm filePath (stem +:+ ".csv") outFormat w = OK w'
    ∧ Py.path_join filePath (stem +:+ ".csv") = Py.path_join filePath stem +:+ ".csv"
    ∧ files w' !! (Py.path_join filePath stem +:+ "." +:+ outFormat)
      = Some (ImageFile (contour_figure cs ticks))
    ∧ (∀ path, path ≠ Py.path_join filePath stem +:+ "." +:+ outFormat →
         files w' !! path = files w !! path).
Proof.
  intros Hstem Hformat Hrect Hcs Hmax Hm _ Hsave.
  destruct (colorbar_ticks_OK m Hm) as [ticks Hticks].
  exists ticks. eexists. split_and!.
  - rewrite (plot_contour_with_max _ _ _ _ _ _ _ cs m) by done.
    rewrite Hticks. simpl. unfold savefig, out_path.
    rewrite drop_last_csv, savefig_filename_plain by done.
    by rewrite Hsave.
  - by apply path_join_app.
  - simpl. apply lookup_insert_eq.
  - intros path Hpath. simpl. by apply lookup_insert_ne.
Qed.

Lemma plot_contour_output_path_witness :
  ∃ ticks w',
    plot_contour sample_X sample_Y (T sample_table) "data" "s.csv" "png"
      (write_file "data/s.png" OtherFile (one_file_world sample_table)) = OK w'
    ∧ files w' !! "data/s.png"
      = Some (ImageFile (contour_figure [[110; 210]; [120; 437]; [130; 230]]%Z ticks))
    ∧ files w' !! "data/s.csv" = Some (CsvFile sample_table).
Proof.
  destruct (plot_contour_output_path sample_X sample_Y (T sample_table) "data" "s" "png"
              (write_file "data/s.png" OtherFile (one_file_world sample_table))
              [[110; 210]; [120; 437]; [130; 230]]%Z 437%Z)
    as (ticks & w' & Hplot & _ & Hout & Hother).
  - reflexivity.
  - reflexivity.
  - solve_well_formed.
  - reflexivity.
  - solve_matrix_max.
  - lia.
  - lia.
  - reflexivity.
  - exists ticks, w'. split_and!; [done..|].
    by rewrite Hother.
Defined.

(** C9 as stated fails for the eligible name [.csv]: its stem is empty, the
    path handed to [savefig] is [data/.png], a name without extension, and
    the image is written to [data/.png.png]. *)
Lemma plot_contour_dot_name :
  Py.endswith ".csv" ".csv" = true
  ∧ ∃ w',
      plot_contour sample_X sample_Y (T sample_table) "data" ".csv" "png"
        (one_file_world sample_table) = OK w'
      ∧ files w' !! "data/.png" = None
      ∧ files w' !! "data/.png.png"
        = Some (ImageFile (contour_figure [[110; 210]; [120; 437]; [130; 230]]%Z
                             [0; 80; 160; 240; 320; 400]%Z)).
Proof. split; [reflexivity|]. eexists. split_and!; [reflexivity|by vm_compute..]. Qed.

(** ** main *)

(** C5, on a directory with three eligible files of which [b.csv] has the
    reading [abc], which is no number.  The failure is caught, a line names [b.csv], the run
    goes on to [c.csv], two files are counted and two images are written.
    The summary line reads as the source spells it, which is not the text
    the claim quotes. *)
Theorem main_sample_run :
  ∃ st,
    main "data" "png" sample_world = OK st
    ∧ count st = 2
    ∧ stdout st
      = ["There are 3 files to parse.";
         "File list = ['a.csv', 'b.csv', 'c.csv']";
         "Failed to plot b.csv.";
         "Succesfully plotted 2/3 files."]
    ∧ images sample_world = ∅
    ∧ images (run_world st) = {[ "data/a.png"; "data/c.png" ]}
    ∧ Forall (λ line, Py.str_in "Successfully plotted 2/3 files" line = false) (stdout st).
Proof.
  eexists. split; [reflexivity|]. split_and!.
  - reflexivity.
  - reflexivity.
  - by vm_compute.
  - by vm_compute.
  - simpl. by repeat constructor.
Qed.

(** * Further properties of the four functions *)

(** ** get_fileNames *)

(** A listing without repeated names, which is what a directory gives,
    yields a result without repeated names and no longer than the listing;
    filtering and sorting the result once more changes nothing. *)
Theorem csv_names_stable (fileList : list string) :
  NoDup fileList →
  NoDup (csv_names fileList)
  ∧ length (csv_names fileList) ≤ length fileList
  ∧ csv_names (csv_names fileList) = csv_names fileList.
Proof.
  intros Hnodup. unfold csv_names at 1 2. split_and!.
  - rewrite sorted_perm. by apply NoDup_filter.
  - rewrite sorted_perm. apply length_filter.
  - unfold csv_names at 1. apply sorted_unique; [apply sorted_sorted|].
    rewrite filter_all_eligible; [done|]. apply Forall_forall.
    by intros file [_ Hfile]%elem_of_csv_names.
Qed.

Lemma csv_names_stable_witness :
  NoDup (csv_names ["c.csv"; "notes.txt"; "a.csv"; "b.CSV"; "b.csv"])
  ∧ length (csv_names ["c.csv"; "notes.txt"; "a.csv"; "b.CSV"; "b.csv"]) ≤ 5.
Proof.
  destruct (csv_names_stable ["c.csv"; "notes.txt"; "a.csv"; "b.CSV"; "b.csv"])
    as (Hnodup & Hlen & _).
  - apply (bool_decide_unpack _). by vm_compute.
  - by split.
Defined.

(** ** get_XYZ *)

Section transpose_back.
Context {A : Type}.
Implicit Types (rows cols : list (list A)).

Lemma transpose_zip_cons (m : nat) (row : list A) cols :
  length row = length cols →
  transpose (S m) (zip_with cons row cols) = row :: transpose m cols.
Proof.
  revert row. induction cols as [|col cols IH]; intros [|x row] Hlen;
    simplify_eq/=; [done|].
  by rewrite IH.
Qed.

Lemma transpose_empty_rows (n : nat) : transpose 0 (replicate n (@nil A)) = [].
Proof. by destruct n. Qed.

Lemma transpose_transpose (n : nat) rows :
  Forall (λ row, length row = n) rows →
  transpose (length rows) (transpose n rows) = rows.
Proof.
  induction 1 as [|row rows Hrow Hrows IH]; simpl.
  - apply transpose_empty_rows.
  - rewrite transpose_zip_cons by by rewrite transpose_length.
    by rewrite IH.
Qed.
End transpose_back.

(** The table [get_XYZ] returns holds every reading of the file, none lost
    or moved: transposing Z once more gives the table as it was read, labels
    included. *)
Theorem get_XYZ_keeps_readings (w : world) (filePath fileName : string)
    (X : ndarray cell) (Y : ndarray Z) (Zm : DataFrame string cell)
    (raw : DataFrame cell string) :
  read_csv w (Py.path_join filePath fileName) = OK raw →
  rectangular raw →
  get_XYZ w filePath fileName = OK (X, Y, Zm) →
  T Zm = raw.
Proof.
  intros Hread [Hlen Hrows]. unfold get_XYZ. rewrite Hread. simpl.
  destruct (astype_int _); [simpl|done]. intros [= _ _ <-].
  destruct raw as [idx cols vals]. unfold T. simpl in *. f_equal.
  rewrite <- Hlen. by apply transpose_transpose.
Qed.

Lemma get_XYZ_keeps_readings_witness :
  T (mkDataFrame ["300"; "310"; "320"] [Num 350; Num 360]
       [[Num 110; Num 210]; [Num 120; Num 437]; [Num 130; Num 230]])
  = sample_table.
Proof.
  apply (get_XYZ_keeps_readings sample_world "data" "a.csv" sample_X sample_Y).
  - reflexivity.
  - solve_well_formed.
  - reflexivity.
Defined.

(** ** main *)

(** In a directory without eligible entries [main] plots nothing: it prints
    the empty file list and the summary 0/0 and leaves the file system as it
    was. *)
Theorem main_nothing_to_plot (file_path save_as : string) (w : world)
    (fileList : list string) :
  listdir w file_path = OK fileList →
  Forall (λ file, Py.endswith file ".csv" = false) fileList →
  main file_path save_as w
  = OK {| run_world := w; count := 0;
          stdout := ["There are 0 files to parse."; "File list = []";
                     "Succesfully plotted 0/0 files."] |}.
Proof.
  intros Hls Hnone. unfold main, get_fileNames. rewrite Hls. simpl.
  assert (csv_names fileList = []) as ->; [|by destruct w].
  apply elem_of_nil_inv. intros file [Hin [stem ->]]%elem_of_csv_names.
  rewrite Forall_forall in Hnone. specialize (Hnone _ Hin).
  assert (Py.endswith (stem +:+ ".csv") ".csv" = true) by (apply endswith_spec; eauto).
  congruence.
Qed.

Lemma main_nothing_to_plot_witness :
  main "data" "png" notes_world
  = OK {| run_world := notes_world; count := 0;
          stdout := ["There are 0 files to parse."; "File list = []";
                     "Succesfully plotted 0/0 files."] |}.
Proof.
  apply (main_nothing_to_plot "data" "png" notes_world ["notes.txt"; "b.CSV"]).
  - reflexivity.
  - by repeat constructor.
Defined.


(** ** plot_contour *)

Lemma plot_contour_inv (X : ndarray cell) (Y : ndarray Z) (Zm : DataFrame string cell)
    (filePath fileName outFormat : string) (w w' : world) :
  plot_contour X Y Zm filePath fileName outFormat w = OK w' →
  ∃ cs ticks,
    contourf X Y Zm = OK cs
    ∧ can_save w (saved_path filePath fileName outFormat) = true
    ∧ w' = write_file (saved_path filePath fileName outFormat)
             (ImageFile (contour_figure cs ticks)) w.
Proof.
  unfold plot_contour, saved_path, out_path.
  destruct (contourf X Y Zm) as [cs|]; [simpl|done].
  destruct (py_max _) as [m|]; [simpl|done].
  destruct (colorbar_ticks m) as [ticks|]; [simpl|done].
  unfold savefig. destruct (can_save w _) eqn:Hsave; [|done].
  intros [= <-]. by exists cs, ticks.
Qed.

Lemma plot_file_inv (filePath outFormat file : string) (w w' : world) :
  plot_file filePath outFormat file w = OK w' →
  ∃ fig,
    can_save w (saved_path filePath file outFormat) = true
    ∧ w' = write_file (saved_path filePath file outFormat) (ImageFile fig) w.
Proof.
  unfold plot_file. destruct (get_XYZ w filePath file) as [[[X Y] Zm]|]; [simpl|done].
  intros (cs & ticks & _ & Hsave & ->)%plot_contour_inv. eauto.
Qed.

Lemma savefig_filename_cases (path : string) :
  savefig_filename path = path ∨ ∃ p, savefig_filename path = p +:+ ".png".
Proof.
  unfold savefig_filename.
  destruct (Py.splitext_ext path) as [|c [|c' ext]]; eauto.
Qed.

(** Whenever [plot_contour] returns it has written one file, an image, and
    every other path holds what it held before.  Nothing checks that the
    last four characters of the name are [.csv]: for a plain stem followed
    by any four ASCII characters the image goes to the stem with the
    format as its extension. *)
Theorem plot_contour_writes_one_image (X : ndarray cell) (Y : ndarray Z)
    (Zm : DataFrame string cell) (filePath fileName outFormat : string) (w w' : world) :
  plot_contour X Y Zm filePath fileName outFormat w = OK w' →
  (∃ fig, files w' !! saved_path filePath fileName outFormat = Some (ImageFile fig))
  ∧ (∀ path, path ≠ saved_path filePath fileName outFormat →
       files w' !! path = files w !! path)
  ∧ (∀ stem ext,
       fileName = stem +:+ ext → Py.is_ascii ext = true → String.length ext = 4 →
       plain_stem stem = true → plain_format outFormat = true →
       saved_path filePath fileName outFormat
       = Py.path_join filePath stem +:+ "." +:+ outFormat).
Proof.
  intros (cs & ticks & _ & _ & ->)%plot_contour_inv. split_and!.
  - eexists. simpl. apply lookup_insert_eq.
  - intros path Hpath. simpl. by apply lookup_insert_ne.
  - intros stem ext -> Hascii Hext Hstem Hformat. unfold saved_path, out_path.
    rewrite <- Hext, drop_last_app by done. by apply savefig_filename_plain.
Qed.

Lemma plot_contour_writes_one_image_witness :
  saved_path "data" "s.xlsx" "png" = "data/s..png".
Proof.
  destruct (plot_contour_writes_one_image sample_X sample_Y (T sample_table)
              "data" "s.xlsx" "png" (one_file_world sample_table) _ eq_refl)
    as (_ & _ & Hstem).
  by apply (Hstem "s." "xlsx").
Defined.

(** [plot_contour] does not touch the file it was given, unless the format
    is [csv]: for an input name [stem.csv] and any other format the input
    path holds after the call what it held before. *)
Theorem plot_contour_keeps_input (X : ndarray cell) (Y : ndarray Z)
    (Zm : DataFrame string cell) (filePath stem outFormat : string) (w w' : world) :
  outFormat ≠ "csv" →
  plot_contour X Y Zm filePath (stem +:+ ".csv") outFormat w = OK w' →
  files w' !! Py.path_join filePath (stem +:+ ".csv")
  = files w !! Py.path_join filePath (stem +:+ ".csv").
Proof.
  intros Hformat (cs & ticks & _ & _ & ->)%plot_contour_inv.
  simpl. apply lookup_insert_ne.
  unfold saved_path, out_path. rewrite drop_last_csv.
  rewrite path_join_app by done.
  destruct (savefig_filename_cases (Py.path_join filePath stem +:+ "." +:+ outFormat))
    as [-> | [p ->]].
  - intros Heq. apply (inj (String.app _)) in Heq.
    change (".csv") with ("." +:+ "csv") in Heq.
    apply (inj (String.app _)) in Heq. done.
  - intros Heq. by apply string_suffix_inj in Heq.
Qed.

Lemma plot_contour_keeps_input_witness :
  files (write_file "data/s.png"
           (ImageFile (contour_figure [[110; 210]; [120; 437]; [130; 230]]%Z
                         [0; 80; 160; 240; 320; 400]%Z))
           (one_file_world sample_table)) !! "data/s.csv"
  = Some (CsvFile sample_table).
Proof.
  etrans.
  - apply (plot_contour_keeps_input sample_X sample_Y (T sample_table)
             "data" "s" "png" (one_file_world sample_table)); [done|reflexivity].
  - reflexivity.
Defined.

Lemma np_arange_five (k : Z) :
  (k < -1)%Z →
  np_arange 0 (5 * k + 1) k = OK [0; k; 2 * k; 3 * k; 4 * k]%Z.
Proof.
  intros Hk. unfold np_arange.
  destruct (k =? 0)%Z eqn:Hk0; [apply Z.eqb_eq in Hk0; lia|].
  replace (- (5 * k + 1 - 0) / k)%Z with (-5)%Z.
  - simpl. f_equal. repeat (apply (f_equal2 cons); [lia|]). done.
  - apply (Z.div_unique _ _ _ (-1)); lia.
Qed.

(** For a surface of whole-number readings whose largest entry [m] is below
    -50 and above -2^52 the call goes through: [maxZ] is negative, the step
    [maxZ / 5] runs downwards from 0, and the colorbar gets the five ticks
    0, maxZ/5, ..., 4 maxZ/5, none of them [maxZ] itself and none below
    it. *)
Theorem plot_contour_negative_ticks (X : ndarray cell) (Y : ndarray Z)
    (Zm : DataFrame string cell) (filePath fileName outFormat : string) (w : world)
    (cs : list (list Z)) (m : Z) :
  rectangular Zm → contourf X Y Zm = OK cs → matrix_max cs m →
  (- 2 ^ 52 < m < -50)%Z →
  can_save w (saved_path filePath fileName outFormat) = true →
  ∃ k : Z,
    (5 * k = round_hundreds m ∧ k ≤ -20)%Z
    ∧ plot_contour X Y Zm filePath fileName outFormat w
      = OK (write_file (saved_path filePath fileName outFormat)
              (ImageFile (contour_figure cs [0; k; 2 * k; 3 * k; 4 * k]%Z)) w)
    ∧ Forall (λ tick, round_hundreds m < tick ≤ 0)%Z [0; k; 2 * k; 3 * k; 4 * k]%Z.
Proof.
  intros Hrect Hcs Hmax [_ Hm] Hsave.
  pose proof (round_hundreds_fifth m) as Hfifth.
  destruct (round_hundreds_nearest m) as (j & Hj & Hnear & _).
  assert (round_hundreds m ≠ 0)%Z as Hnz by (rewrite round_hundreds_zero; lia).
  set (k := (round_hundreds m / 5)%Z) in *.
  assert (k ≤ -20)%Z as Hk by lia.
  exists k. split; [done|]. split.
  - rewrite (plot_contour_with_max _ _ _ _ _ _ _ cs m) by done.
    unfold colorbar_ticks. fold k. rewrite <- Hfifth.
    rewrite np_arange_five by lia. simpl. unfold savefig.
    fold (saved_path filePath fileName outFormat). by rewrite Hsave.
  - repeat constructor; lia.
Qed.

Lemma plot_contour_negative_ticks_witness :
  ∃ k : Z,
    plot_contour sample_X sample_Y (T negative_table) "data" "s.csv" "png"
      (one_file_world negative_table)
    = OK (write_file "data/s.png"
            (ImageFile (contour_figure [[-437; -700]; [-500; -800]; [-600; -900]]%Z
                          [0; k; 2 * k; 3 * k; 4 * k]%Z))
            (one_file_world negative_table))
    ∧ (5 * k)%Z = (-400)%Z.
Proof.
  destruct (plot_contour_negative_ticks sample_X sample_Y (T negative_table)
              "data" "s.csv" "png" (one_file_world negative_table)
              [[-437; -700]; [-500; -800]; [-600; -900]]%Z (-437)%Z)
    as (k & [Hk _] & Hplot & _).
  - solve_well_formed.
  - reflexivity.
  - solve_matrix_max.
  - lia.
  - reflexivity.
  - exists k. split; [exact Hplot|exact Hk].
Defined.

(** ** Files that load but do not render *)

Lemma as_numbers_text_cell (rows : list (list cell)) (row : list cell) (c : cell) :
  row ∈ rows → c ∈ row → cell_num c = None → as_numbers rows = None.
Proof.
  intros Hrow Hc Hnone. unfold as_numbers.
  apply mapM_None_2, Exists_exists. exists row. split; [done|].
  apply mapM_None_2, Exists_exists. eauto.
Qed.

Lemma contourf_Raise (X : ndarray cell) (Y : ndarray Z) (Zm : DataFrame string cell)
    (e : exn) :
  contourf X Y Zm = Raise e → e = ContourError.
Proof. unfold contourf. repeat case_match; congruence. Qed.

Lemma plot_contour_contourf_Raise (X : ndarray cell) (Y : ndarray Z)
    (Zm : DataFrame string cell) (filePath fileName outFormat : string) (w : world) :
  (∀ cs, contourf X Y Zm ≠ OK cs) →
  plot_contour X Y Zm filePath fileName outFormat w = Raise ContourError.
Proof.
  intros Hno. unfold plot_contour.
  destruct (contourf X Y Zm) as [cs|e] eqn:Hcs; [by destruct (Hno cs)|].
  simpl. by rewrite (contourf_Raise _ _ _ _ Hcs).
Qed.

(** A reading that pandas keeps as text (it is neither a number nor a marker
    of a missing value) does not stop [get_XYZ]; it stops the rendering.
    For a table whose header labels convert to integers and which has such
    a reading among its cells, [get_XYZ] returns and [plot_contour] raises
    on what it returned, so the file is not plotted and nothing is
    written. *)
Theorem plot_file_text_fails (w : world) (filePath outFormat file : string)
    (raw : DataFrame cell string) :
  read_csv w (Py.path_join filePath file) = OK raw →
  rectangular raw →
  Forall (λ label, is_Some (label_int label)) (columns raw) →
  Exists (Exists (λ c, cell_num c = None)) (values raw) →
  (∃ X Y, get_XYZ w filePath file = OK (X, Y, T raw)
          ∧ plot_contour X Y (T raw) filePath file outFormat w = Raise ContourError)
  ∧ plot_file filePath outFormat file w = Raise ContourError.
Proof.
  intros Hread [Hlen Hrows] Hlabels Hcell.
  destruct (astype_int_OK _ Hlabels) as (y & Hy & _).
  pose proof (get_XYZ_OK w filePath file raw y Hread Hy) as Hget.
  assert (plot_contour (meshgrid (index raw) y).1 (meshgrid (index raw) y).2 (T raw)
            filePath file outFormat w = Raise ContourError) as Hplot.
  { apply plot_contour_contourf_Raise. intros cs Hcs.
    pose proof Hcs as (Hnum & _)%contourf_OK.
    apply Exists_exists in Hcell as (row & Hrow & Hcell).
    apply Exists_exists in Hcell as (c & Hc & Hnone).
    apply list_elem_of_lookup in Hrow as [i Hi].
    apply list_elem_of_lookup in Hc as [j Hj].
    pose proof (transpose_lookup (length (columns raw)) (values raw) i j Hrows) as Ht.
    rewrite Hi in Ht. simpl in Ht. rewrite Hj in Ht.
    destruct (transpose _ _ !! j) as [col|] eqn:Hcol; [simpl in Ht|done].
    assert (as_numbers (values (T raw)) = None) as Hnone'; [|congruence].
    apply (as_numbers_text_cell _ col c); [|by eapply list_elem_of_lookup_2|done].
    by eapply list_elem_of_lookup_2. }
  split.
  - eexists _, _. split; [exact Hget|exact Hplot].
  - unfold plot_file. rewrite Hget. simpl. exact Hplot.
Qed.

Lemma plot_file_text_fails_witness :
  plot_file "data" "png" "b.csv" sample_world = Raise ContourError.
Proof.
  apply (plot_file_text_fails sample_world "data" "png" "b.csv"
           (eem_table (Num 110) (Str "abc") (Num 130) (Num 210) (Str "437") (Num 230))).
  - reflexivity.
  - solve_well_formed.
  - solve_well_formed.
  - left. right. by left.
Defined.

(** A table with fewer than two rows or fewer than two columns of readings,
    whose header labels convert to integers, is loaded like any other, but
    [contourf] needs a surface of at least 2 by 2: the file is not plotted,
    whatever its readings. *)
Theorem plot_file_small_table_fails (w : world) (filePath outFormat file : string)
    (raw : DataFrame cell string) :
  read_csv w (Py.path_join filePath file) = OK raw →
  Forall (λ label, is_Some (label_int label)) (columns raw) →
  length (index raw) < 2 ∨ length (columns raw) < 2 →
  (∃ X Y, get_XYZ w filePath file = OK (X, Y, T raw))
  ∧ plot_file filePath outFormat file w = Raise ContourError.
Proof.
  intros Hread Hlabels Hsmall.
  destruct (astype_int_OK _ Hlabels) as (y & Hy & _).
  pose proof (get_XYZ_OK w filePath file raw y Hread Hy) as Hget.
  split; [by eexists _, _|].
  unfold plot_file. rewrite Hget. simpl.
  apply plot_contour_contourf_Raise.
  intros cs (_ & Hrows & Hcols & _)%contourf_OK. simpl in *. lia.
Qed.

Lemma plot_file_small_table_fails_witness :
  plot_file "data" "png" "s.csv" (one_file_world one_row_table) = Raise ContourError
  ∧ plot_file "data" "png" "s.csv" (one_file_world header_only_table) = Raise ContourError.
Proof.
  split.
  - apply (plot_file_small_table_fails _ _ _ _ one_row_table);
      [reflexivity|solve_well_formed|left; simpl; lia].
  - apply (plot_file_small_table_fails _ _ _ _ header_only_table);
      [reflexivity|solve_well_formed|left; simpl; lia].
Defined.

(** ** Whole runs *)

Lemma plot_all_all_fail (filePath outFormat : string) (fileNames : list string) (st : run) :
  (∀ file w', plot_file filePath outFormat file (run_world st) ≠ OK w') →
  plot_all filePath outFormat fileNames st
  = {| run_world := run_world st; count := count st;
       stdout := stdout st ++ (failure_line <$> fileNames) |}.
Proof.
  intros Hfail. revert st Hfail.
  induction fileNames as [|file rest IH]; intros st Hfail; simpl.
  - rewrite app_nil_r. by destruct st.
  - destruct (plot_file _ _ _ _) as [w'|e] eqn:Hfile; [by destruct (Hfail file w')|].
    rewrite IH by done. simpl. by rewrite <- app_assoc.
Qed.

(** When [savefig] can write no path at all (a format it does not know, a
    directory it may not write to), every file fails at its last step: the
    run prints one failure line per file, in order, reports 0 of n, and
    leaves the file system as it was. *)
Theorem main_nothing_saved (file_path save_as : string) (w : world)
    (fileNames : list string) :
  (∀ path, can_save w path = false) →
  get_fileNames w file_path = OK fileNames →
  main file_path save_as w
  = OK {| run_world := w; count := 0;
          stdout := ["There are " +:+ Py.str (length fileNames) +:+ " files to parse.";
                     "File list = " +:+ Py.repr_list fileNames]
                    ++ (failure_line <$> fileNames)
                    ++ [summary_line 0 (length fileNames)] |}.
Proof.
  intros Hsave Hnames. unfold main. rewrite Hnames. simpl.
  rewrite plot_all_all_fail.
  - simpl. by destruct w.
  - simpl. intros file w' (fig & Htrue & _)%plot_file_inv.
    by rewrite Hsave in Htrue.
Qed.

Lemma main_nothing_saved_witness :
  main "data" "png" read_only_world
  = OK {| run_world := read_only_world; count := 0;
          stdout := ["There are 3 files to parse.";
                     "File list = ['a.csv', 'b.csv', 'c.csv']";
                     "Failed to plot a.csv."; "Failed to plot b.csv.";
                     "Failed to plot c.csv."; "Succesfully plotted 0/3 files."] |}.
Proof.
  apply (main_nothing_saved "data" "png" read_only_world ["a.csv"; "b.csv"; "c.csv"]).
  - done.
  - by vm_compute.
Defined.

Lemma plot_all_footprint (filePath outFormat : string) (fileNames : list string) (st : run) :
  can_save (run_world (plot_all filePath outFormat fileNames st)) = can_save (run_world st)
  ∧ ∀ path,
      files (run_world (plot_all filePath outFormat fileNames st)) !! path
      = files (run_world st) !! path
      ∨ ∃ file fig,
          file ∈ fileNames ∧ path = saved_path filePath file outFormat
          ∧ files (run_world (plot_all filePath outFormat fileNames st)) !! path
            = Some (ImageFile fig).
Proof.
  revert st. induction fileNames as [|file rest IH]; intros st; simpl.
  - split; [done|]. by left.
  - destruct (plot_file _ _ _ _) as [w'|e] eqn:Hfile.
    + apply plot_file_inv in Hfile as (fig & _ & ->).
      destruct (IH {| run_world := write_file (saved_path filePath file outFormat)
                                     (ImageFile fig) (run_world st);
                      count := count st + 1; stdout := stdout st |})
        as (Hsave & Hfiles).
      split; [done|]. intros path.
      destruct (Hfiles path) as [Hsame|(file' & fig' & Hin & -> & Himg)].
      * destruct (decide (path = saved_path filePath file outFormat)) as [->|Hne].
        -- right. exists file, fig. split_and!; [left|done|].
           rewrite Hsame. simpl. apply lookup_insert_eq.
        -- left. rewrite Hsame. simpl. by apply lookup_insert_ne.
      * right. exists file', fig'. split_and!; [by right|done..].
    + destruct (IH {| run_world := run_world st; count := count st;
                      stdout := stdout st ++ [failure_line file] |})
        as (Hsave & Hfiles).
      split; [done|]. intros path.
      destruct (Hfiles path) as [Hsame|(file' & fig' & Hin & -> & Himg)]; [by left|].
      right. exists file', fig'. split_and!; [by right|done..].
Qed.

(** What a run may change: the only paths whose content differs after
    [main] are the files [savefig] wrote for listed files, and each of them
    then holds an image.  For a listed name [stem.csv] that file is the one
    [savefig] makes of the directory, the stem, a dot and the format; when
    the stem has a character other than a dot and the format is a bare
    extension it is exactly that path. *)
Theorem main_writes_only_images (file_path save_as : string) (w : world)
    (fileNames : list string) :
  get_fileNames w file_path = OK fileNames →
  ∃ st,
    main file_path save_as w = OK st
    ∧ ∀ path,
        files (run_world st) !! path = files w !! path
        ∨ ∃ stem fig,
            stem +:+ ".csv" ∈ fileNames
            ∧ path = savefig_filename (Py.path_join file_path stem +:+ "." +:+ save_as)
            ∧ (plain_stem stem = true → plain_format save_as = true →
               path = Py.path_join file_path stem +:+ "." +:+ save_as)
            ∧ files (run_world st) !! path = Some (ImageFile fig).
Proof.
  intros Hnames. unfold main. rewrite Hnames. simpl. eexists. split; [done|]. simpl.
  match goal with
  | |- context [plot_all ?p ?f ?l ?st] =>
      destruct (plot_all_footprint p f l st) as (_ & Hfiles)
  end.
  intros path.
  destruct (Hfiles path) as [Hsame|(file & fig & Hin & -> & Himg)]; [by left|].
  right. unfold get_fileNames in Hnames.
  destruct (listdir w file_path) as [fileList|]; [|done].
  injection Hnames as <-.
  pose proof Hin as [_ [stem ->]]%elem_of_csv_names.
  exists stem, fig. split; [done|].
  revert Himg. unfold saved_path, out_path. rewrite drop_last_csv.
  intros Himg. split_and!; [done| |done].
  intros Hstem Hformat. by apply savefig_filename_plain.
Qed.

Lemma main_writes_only_images_witness :
  ∃ st,
    main "data" "png" sample_world = OK st
    ∧ (files (run_world st) !! "data/notes.txt" = files sample_world !! "data/notes.txt"
       ∨ ∃ stem fig,
           stem +:+ ".csv" ∈ ["a.csv"; "b.csv"; "c.csv"]
           ∧ "data/notes.txt"
             = savefig_filename (Py.path_join "data" stem +:+ "." +:+ "png")
           ∧ (plain_stem stem = true → plain_format "png" = true →
              "data/notes.txt" = Py.path_join "data" stem +:+ "." +:+ "png")
           ∧ files (run_world st) !! "data/notes.txt" = Some (ImageFile fig)).
Proof.
  destruct (main_writes_only_images "data" "png" sample_world ["a.csv"; "b.csv"; "c.csv"])
    as (st & Hmain & Hfiles); [by vm_compute|].
  exists st. split; [done|]. exact (Hfiles "data/notes.txt").
Defined.

(** Whether a file plots depends on the file system only through the
    content of its own path and on whether its output can be saved. *)
Lemma plot_file_outcome_local (filePath outFormat file : string) (w1 w2 : world) :
  files w1 !! Py.path_join filePath file = files w2 !! Py.path_join filePath file →
  can_save w1 (saved_path filePath file outFormat)
  = can_save w2 (saved_path filePath file outFormat) →
  is_OK (plot_file filePath outFormat file w1)
  = is_OK (plot_file filePath outFormat file w2).
Proof.
  intros Hfile Hsave. unfold plot_file, get_XYZ, read_csv. rewrite Hfile.
  destruct (files w2 !! _) as [[raw| |]|]; simpl; try done.
  destruct (astype_int _); simpl; try done.
  unfold plot_contour. destruct (contourf _ _ _); simpl; try done.
  destruct (py_max _); simpl; try done.
  destruct (colorbar_ticks _); simpl; try done.
  unfold savefig. fold (out_path filePath file outFormat).
  fold (saved_path filePath file outFormat). rewrite Hsave.
  by destruct (can_save w2 _).
Qed.

Lemma csv_path_endswith (filePath stem : string) :
  Py.endswith (Py.path_join filePath (stem +:+ ".csv")) ".csv" = true.
Proof. rewrite path_join_app by done. apply endswith_spec. eauto. Qed.

Lemma plot_all_independent (filePath outFormat : string) (w0 : world)
    (fileNames : list string) (st : run) :
  (∀ path, can_save w0 path = true → Py.endswith path ".csv" = false) →
  Forall (λ file, ∃ stem, file = stem +:+ ".csv") fileNames →
  (∀ path, Py.endswith path ".csv" = true →
     files (run_world st) !! path = files w0 !! path) →
  (∀ path, can_save (run_world st) path = can_save w0 path) →
  count (plot_all filePath outFormat fileNames st)
  = count st
    + length (filter (λ file, is_OK (plot_file filePath outFormat file w0) = true)
                fileNames)
  ∧ stdout (plot_all filePath outFormat fileNames st)
    = stdout st
      ++ (failure_line <$>
            filter (λ file, is_OK (plot_file filePath outFormat file w0) = false)
              fileNames).
Proof.
  intros Hnocsv Hnames. revert st.
  induction Hnames as [|file rest [stem ->] _ IH]; intros st Hfiles Hsave; simpl.
  - split; [lia|by rewrite app_nil_r].
  - pose proof (plot_file_outcome_local filePath outFormat (stem +:+ ".csv")
                  (run_world st) w0) as Hlocal.
    rewrite Hfiles, Hsave in Hlocal by apply csv_path_endswith.
    specialize (Hlocal eq_refl eq_refl).
    destruct (plot_file _ _ _ (run_world st)) as [w'|e] eqn:Hfile; simpl in Hlocal.
    + apply plot_file_inv in Hfile as (fig & Htrue & ->).
      rewrite filter_cons_True by done.
      rewrite (filter_cons_False (λ file, is_OK _ = false)) by by rewrite <- Hlocal.
      destruct (IH {| run_world := write_file (saved_path filePath (stem +:+ ".csv") outFormat)
                                     (ImageFile fig) (run_world st);
                      count := count st + 1; stdout := stdout st |}) as [Hcount Hout].
      * intros path Hpath. simpl. rewrite lookup_insert_ne; [by apply Hfiles|].
        intros <-. rewrite Hsave in Htrue. apply Hnocsv in Htrue. congruence.
      * done.
      * split; [simpl in *; lia|done].
    + rewrite filter_cons_False by by rewrite <- Hlocal.
      rewrite (filter_cons_True (λ file, is_OK _ = false)) by done.
      destruct (IH {| run_world := run_world st; count := count st;
                      stdout := stdout st ++ [failure_line (stem +:+ ".csv")] |})
        as [Hcount Hout]; [done..|].
      split; [done|]. rewrite Hout. simpl. by rewrite <- app_assoc.
Qed.

(** The files of a run do not influence one another.  Provided [savefig]
    writes no path ending in [.csv], each listed file is plotted in the run
    exactly if it would be plotted alone in the file system the run starts
    from: the count is the number of such files, and the failure lines name
    the others, in order. *)
Theorem main_outcomes_independent (file_path save_as : string) (w : world)
    (fileNames : list string) :
  (∀ path, can_save w path = true → Py.endswith path ".csv" = false) →
  get_fileNames w file_path = OK fileNames →
  ∃ st,
    main file_path save_as w = OK st
    ∧ count st
      = length (filter (λ file, is_OK (plot_file file_path save_as file w) = true)
                  fileNames)
    ∧ stdout st
      = ["There are " +:+ Py.str (length fileNames) +:+ " files to parse.";
         "File list = " +:+ Py.repr_list fileNames]
        ++ (failure_line <$>
              filter (λ file, is_OK (plot_file file_path save_as file w) = false)
                fileNames)
        ++ [summary_line (count st) (length fileNames)].
Proof.
  intros Hnocsv Hnames. unfold main. rewrite Hnames. simpl.
  eexists. split; [done|]. simpl.
  match goal with
  | |- context [plot_all ?p ?f ?l ?st] =>
      destruct (plot_all_independent p f w l st) as [Hcount Hout]
  end; try done.
  - unfold get_fileNames in Hnames.
    destruct (listdir w file_path) as [fileList|]; [|done].
    injection Hnames as <-. apply Forall_forall.
    by intros file [_ Hfile]%elem_of_csv_names.
  - split; [done|]. by rewrite Hout.
Qed.

Lemma png_only_not_csv (path : string) :
  png_only path = true → Py.endswith path ".csv" = false.
Proof.
  unfold png_only. intros [p ->]%endswith_spec.
  destruct (Py.endswith _ ".csv") eqn:Hcsv; [|done].
  apply endswith_spec in Hcsv as [q Hq].
  by apply string_suffix_inj in Hq.
Qed.

Lemma main_outcomes_independent_witness :
  ∃ st,
    main "data" "png" sample_world = OK st
    ∧ count st
      = length (filter (λ file, is_OK (plot_file "data" "png" file sample_world) = true)
                  ["a.csv"; "b.csv"; "c.csv"]).
Proof.
  destruct (main_outcomes_independent "data" "png" sample_world ["a.csv"; "b.csv"; "c.csv"])
    as (st & Hmain & Hcount & _).
  - apply png_only_not_csv.
  - by vm_compute.
  - by exists st.
Defined.

(** A file is handled in the same way in two file systems that hold the same
    files and have the same backend, whatever their listings are. *)
Lemma plot_file_same_files (filePath outFormat file : string) (w1 w2 : world) :
  files w1 = files w2 → can_save w1 = can_save w2 →
  match plot_file filePath outFormat file w1, plot_file filePath outFormat file w2 with
  | OK w1', OK w2' => files w1' = files w2' ∧ can_save w1' = can_save w2'
  | Raise e1, Raise e2 => e1 = e2
  | _, _ => False
  end.
Proof.
  intros Hfiles Hsave. unfold plot_file, get_XYZ, read_csv. rewrite Hfiles.
  destruct (files w2 !! _) as [[raw| |]|]; simpl; try done.
  destruct (astype_int _); simpl; try done.
  unfold plot_contour. destruct (contourf _ _ _); simpl; try done.
  destruct (py_max _); simpl; try done.
  destruct (colorbar_ticks _); simpl; try done.
  unfold savefig. rewrite Hsave. destruct (can_save w2 _); [|done].
  simpl. by rewrite Hfiles.
Qed.

Lemma plot_all_same_files (filePath outFormat : string) (fileNames : list string)
    (st1 st2 : run) :
  files (run_world st1) = files (run_world st2) →
  can_save (run_world st1) = can_save (run_world st2) →
  count st1 = count st2 → stdout st1 = stdout st2 →
  files (run_world (plot_all filePath outFormat fileNames st1))
  = files (run_world (plot_all filePath outFormat fileNames st2))
  ∧ count (plot_all filePath outFormat fileNames st1)
    = count (plot_all filePath outFormat fileNames st2)
  ∧ stdout (plot_all filePath outFormat fileNames st1)
    = stdout (plot_all filePath outFormat fileNames st2).
Proof.
  revert st1 st2.
  induction fileNames as [|file rest IH]; intros st1 st2 Hfiles Hsave Hcount Hout; simpl.
  - done.
  - pose proof (plot_file_same_files filePath outFormat file _ _ Hfiles Hsave) as Hfile.
    destruct (plot_file _ _ _ (run_world st1)) as [w1'|e1],
             (plot_file _ _ _ (run_world st2)) as [w2'|e2]; try done.
    + destruct Hfile as [Hfiles' Hsave']. apply IH; simpl; congruence.
    + apply IH; simpl; congruence.
Qed.

(** A run does not depend on the order in which the operating system lists
    the directory: with the entries of the directory in any other order,
    [main] prints the same lines, counts the same files and leaves the same
    files behind. *)
Theorem main_listing_order (file_path save_as : string) (w : world)
    (fileList fileList' : list string) :
  listdir w file_path = OK fileList →
  fileList' ≡ₚ fileList →
  ∃ st st',
    main file_path save_as w = OK st
    ∧ main file_path save_as
        (with_entries (<[file_path := fileList']> (entries w)) w) = OK st'
    ∧ stdout st' = stdout st
    ∧ count st' = count st
    ∧ files (run_world st') = files (run_world st).
Proof.
  intros Hls Hperm. unfold main, get_fileNames, listdir in *. simpl.
  rewrite lookup_insert_eq. destruct (entries w !! file_path); [|done].
  injection Hls as ->. simpl.
  rewrite (csv_names_perm fileList fileList' Hperm).
  eexists _, _. split; [done|]. split; [done|]. simpl.
  match goal with
  | |- context [plot_all ?p ?f ?l {| run_world := with_entries ?e w; count := ?c; stdout := ?o |}] =>
      destruct (plot_all_same_files p f l
                  {| run_world := with_entries e w; count := c; stdout := o |}
                  {| run_world := w; count := c; stdout := o |})
        as (Hfiles & Hcount & Hout); [done..|]
  end.
  by rewrite Hfiles, Hcount, Hout.
Qed.

Lemma main_listing_order_witness :
  ∃ st st',
    main "data" "png" sample_world = OK st
    ∧ main "data" "png"
        (with_entries
           (<["data" := ["b.csv"; "b.CSV"; "a.csv"; "notes.txt"; "c.csv"]]>
              (entries sample_world))
           sample_world) = OK st'
    ∧ stdout st' = stdout st.
Proof.
  destruct (main_listing_order "data" "png" sample_world
              ["c.csv"; "notes.txt"; "a.csv"; "b.CSV"; "b.csv"]
              ["b.csv"; "b.CSV"; "a.csv"; "notes.txt"; "c.csv"])
    as (st & st' & Hmain & Hmain' & Hout & _).
  - reflexivity.
  - apply (bool_decide_unpack _). by vm_compute.
  - by exists st, st'.
Defined.
